(** * pypub.chapter: a shallow embedding and its verified properties

    The development follows [pypub/chapter.py]: image type detection and
    download ([get_image_type], [save_image], [_replace_image]), the
    [Chapter] class, [ChapterFactory] and [ChapterGithubGistFactory].

    Python text ([str]) is modelled by [string]; one [ascii] is one code
    point in the range U+0000..U+00FF, so [String.length] is Python's [len].
    Byte strings ([bytes]) are modelled by [string] as well, one [ascii]
    per byte.  Exceptions are values of [exn]; code that can raise returns
    a [result].  Code that touches the file system threads a [World]. *)

From Stdlib Require Import Ascii String.
From stdpp Require Import base option list gmap strings.

Set Warnings "-register-all".
Local Open Scope nat_scope.

(** ** Exceptions and results *)

(** The exception classes the module raises or catches.  [IOError] is
    Python 3's [OSError] ([urllib.error.URLError] included);
    [RequestException] stands for the exceptions of [requests], which all
    derive from [IOError]; [HTTPError] is what [raise_for_status] raises;
    [ParserRejectedMarkup] is what [BeautifulSoup] raises on markup that
    [html.parser] refuses; [InvalidURL] is [http.client.InvalidURL], which
    [urllib] raises for a URL with a space or a control character, and
    which is no [IOError]. *)
Inductive exn : Type :=
  | AssertionError
  | TypeError (msg : string)
  | ValueError (msg : string)
  | KeyError (key : string)
  | IndexError
  | AttributeError
  | IOError
  | RequestException
  | HTTPError
  | UnicodeDecodeError
  | ParserRejectedMarkup
  | InvalidURL
  | NoUrlError
  | ImageErrorException (image_url : string).

#[global] Instance exn_eq_dec : EqDecision exn.
Proof. solve_decision. Defined.

(** [except IOError] also catches the subclasses. *)
Definition is_IOError (e : exn) : bool :=
  match e with
  | IOError | RequestException | HTTPError => true
  | _ => false
  end.

(** [NoUrlError.__str__] and [ImageErrorException.__str__]. *)
Definition exn_str (e : exn) : string :=
  match e with
  | NoUrlError => "Chapter instance URL attribute is None"
  | ImageErrorException u => "Error downloading image from " +:+ u
  | TypeError m | ValueError m => m
  | KeyError k => k
  | _ => ""
  end.

Inductive result (A : Type) : Type :=
  | Ok (a : A)
  | Raise (e : exn).
Arguments Ok {A} a.
Arguments Raise {A} e.

Definition is_Ok {A} (r : result A) : bool :=
  match r with Ok _ => true | Raise _ => false end.

Definition rbind {A B} (r : result A) (k : A -> result B) : result B :=
  match r with
  | Ok a => k a
  | Raise e => Raise e
  end.

(** Stateful code: the state survives an exception, as in Python. *)
Definition M (S A : Type) : Type := S -> result A * S.

Definition ret {S A} (a : A) : M S A := fun s => (Ok a, s).
Definition raise {S A} (e : exn) : M S A := fun s => (Raise e, s).
Definition bind {S A B} (m : M S A) (k : A -> M S B) : M S B :=
  fun s => match m s with
           | (Ok a, s') => k a s'
           | (Raise e, s') => (Raise e, s')
           end.
Definition lift_result {S A} (r : result A) : M S A := fun s => (r, s).

Declare Scope py_scope.
Delimit Scope py_scope with py.
Notation "x <- m ;; k" := (bind m (fun x => k))
  (at level 100, m at next level, right associativity) : py_scope.
Notation "m ;;; k" := (bind m (fun _ => k))
  (at level 100, right associativity) : py_scope.

(** ** Python values where the code inspects the dynamic type *)

Inductive pyval : Type :=
  | PyNone
  | PyStr (s : string)
  | PyInt (z : Z).

(** [type(v).__name__] *)
Definition type_name (v : pyval) : string :=
  match v with
  | PyNone => "NoneType"
  | PyStr _ => "str"
  | PyInt _ => "int"
  end.

(** ** String operations of the Python runtime *)

Module Str.

(** The double-quote character, as a string. *)
Definition dquote : string := String (ascii_of_nat 34) EmptyString.

(** [s.startswith(p)] *)
Fixpoint startswith (s p : string) : bool :=
  match p, s with
  | EmptyString, _ => true
  | String c p', String d s' => if Ascii.eqb c d then startswith s' p' else false
  | String _ _, EmptyString => false
  end.

(** [s.endswith(suffix)] *)
Definition endswith (s suffix : string) : bool :=
  startswith (String.rev s) (String.rev suffix).

Fixpoint drop (n : nat) (s : string) : string :=
  match n, s with
  | 0, _ => s
  | S n', String _ s' => drop n' s'
  | S _, EmptyString => EmptyString
  end.

(** [s[-n:]] for a positive [n]: the last [n] characters, the whole
    string when it is shorter. *)
Definition last_chars (n : nat) (s : string) : string :=
  drop (String.length s - n) s.

(** [s.replace(old, new)] for a non-empty [old]: non-overlapping
    occurrences, left to right.  [skip] counts the characters of a
    matched occurrence still to be consumed. *)
Fixpoint replace_go (old new : string) (skip : nat) (s : string) : string :=
  match s with
  | EmptyString => EmptyString
  | String c s' =>
      match skip with
      | S k => replace_go old new k s'
      | 0 =>
          if startswith s old
          then new +:+ replace_go old new (String.length old - 1) s'
          else String c (replace_go old new 0 s')
      end
  end.
Definition replace (s old new : string) : string := replace_go old new 0 s.

Fixpoint spaces (n : nat) : string :=
  match n with
  | 0 => EmptyString
  | S n' => String " " (spaces n')
  end.

(** [format(s, '>' + str(width))]: right-aligned in [width], padded with
    spaces, never truncated. *)
Definition rjust (width : nat) (s : string) : string :=
  spaces (width - String.length s) +:+ s.

(** [sep.join(l)] *)
Fixpoint join (sep : string) (l : list string) : string :=
  match l with
  | [] => EmptyString
  | [x] => x
  | x :: l' => x +:+ sep +:+ join sep l'
  end.

(** [s.encode('utf-8')] on code points below U+0100. *)
Definition utf8_char (c : ascii) : string :=
  let n := nat_of_ascii c in
  if Nat.ltb n 128 then String c EmptyString
  else String (ascii_of_nat (192 + n / 64))
         (String (ascii_of_nat (128 + n mod 64)) EmptyString).
Fixpoint encode_utf8 (s : string) : string :=
  match s with
  | EmptyString => EmptyString
  | String c s' => utf8_char c +:+ encode_utf8 s'
  end.

(** [pat in s] *)
Fixpoint contains (s pat : string) : bool :=
  (startswith s pat ||
   match s with
   | EmptyString => false
   | String _ s' => contains s' pat
   end)%bool.

End Str.

(** [os.linesep] and the [posixpath] functions the module calls. *)
Module Os.

Definition linesep : string := String (ascii_of_nat 10) EmptyString.

(** [os.path.join(a, b)] *)
Definition path_join (a b : string) : string :=
  if Str.startswith b "/" then b
  else if (String.eqb a "" || Str.endswith a "/")%bool then a +:+ b
  else a +:+ "/" +:+ b.

(** [os.path.basename(p)]: what follows the last slash. *)
Fixpoint basename_go (acc : string) (p : string) : string :=
  match p with
  | EmptyString => String.rev acc
  | String c p' =>
      if Ascii.eqb c "/" then basename_go EmptyString p'
      else basename_go (String c acc) p'
  end.
Definition path_basename (p : string) : string := basename_go EmptyString p.

End Os.

(** ** The parse tree of [bs4]

    A [BeautifulSoup] object is the list of its top-level nodes.  Python
    object identity of a tag is its [ident]: the loops of the module hold
    references to tags while they mutate the tree the tags live in. *)
Module Bs4.

Inductive node : Type :=
  | NavigableString (s : string)
  | Tag (ident : nat) (name : string) (attrs : list (string * string))
        (contents : list node).

Definition soup : Type := list node.

(** Python dictionaries keep insertion order: [d[k]], [k in d], [d[k] = v]. *)
Fixpoint dict_get (k : string) (d : list (string * string)) : option string :=
  match d with
  | [] => None
  | (k', v) :: d' => if String.eqb k' k then Some v else dict_get k d'
  end.
Definition dict_has (k : string) (d : list (string * string)) : bool :=
  match dict_get k d with Some _ => true | None => false end.
Fixpoint dict_set (k v : string) (d : list (string * string))
  : list (string * string) :=
  match d with
  | [] => [(k, v)]
  | (k', v') :: d' =>
      if String.eqb k' k then (k, v) :: d' else (k', v') :: dict_set k v d'
  end.

Definition is_tag_named (nm : string) (n : node) : bool :=
  match n with
  | Tag _ nm' _ _ => String.eqb nm' nm
  | NavigableString _ => false
  end.

Definition node_ident (n : node) : option nat :=
  match n with
  | Tag i _ _ _ => Some i
  | NavigableString _ => None
  end.

(** [tag[key]] raises [KeyError] when the attribute is missing. *)
Definition getitem (n : node) (k : string) : result string :=
  match n with
  | Tag _ _ at_ _ =>
      match dict_get k at_ with
      | Some v => Ok v
      | None => Raise (KeyError k)
      end
  | NavigableString _ => Raise (TypeError "string indices must be integers")
  end.

Definition has_attr (n : node) (k : string) : bool :=
  match n with
  | Tag _ _ at_ _ => dict_has k at_
  | NavigableString _ => false
  end.

(** The node followed by everything below it, in document order. *)
Fixpoint self_and_descendants (n : node) : list node :=
  match n with
  | NavigableString _ => [n]
  | Tag _ _ _ cs => n :: flat_map self_and_descendants cs
  end.

Definition descendants (s : soup) : list node :=
  flat_map self_and_descendants s.

Definition node_contents (n : node) : list node :=
  match n with
  | Tag _ _ _ cs => cs
  | NavigableString _ => []
  end.

(** [soup.find_all(name)] and [soup.find(name)]. *)
Definition find_all (nm : string) (s : soup) : list node :=
  filter (fun n => is_tag_named nm n = true) (descendants s).
Definition find (nm : string) (s : soup) : option node :=
  head (find_all nm s).

(** The [class_=] filter: one of the classes of the tag is [cls]. *)
Definition has_class (cls : string) (n : node) : bool :=
  match n with
  | Tag _ _ at_ _ =>
      match dict_get "class" at_ with
      | Some v =>
          (String.eqb v cls ||
           existsb (String.eqb cls) (String.words v))%bool
      | None => false
      end
  | NavigableString _ => false
  end.
Definition find_class (nm cls : string) (s : soup) : option node :=
  head (filter (fun n => (is_tag_named nm n && has_class cls n)%bool = true)
          (descendants s)).

(** [tag.text]: the strings below the tag, concatenated. *)
Fixpoint get_text (n : node) : string :=
  match n with
  | NavigableString s => s
  | Tag _ _ _ cs => fold_right (fun c acc => get_text c +:+ acc) "" cs
  end.

(** [tag.string]: the single string child, looked for through single
    children; [None] otherwise. *)
Fixpoint tag_string (n : node) : option string :=
  match n with
  | NavigableString s => Some s
  | Tag _ _ _ cs =>
      match cs with
      | [c] => tag_string c
      | _ => None
      end
  end.

(** [tag.decompose()] for the tag of identity [i]. *)
Fixpoint decompose_node (i : nat) (n : node) : list node :=
  match n with
  | NavigableString _ => [n]
  | Tag j nm at_ cs =>
      if Nat.eqb j i then []
      else [Tag j nm at_ (flat_map (decompose_node i) cs)]
  end.
Definition decompose (i : nat) (s : soup) : soup :=
  flat_map (decompose_node i) s.

(** [tag[k] = v] for the tag of identity [i]. *)
Fixpoint setitem_node (i : nat) (k v : string) (n : node) : node :=
  match n with
  | NavigableString _ => n
  | Tag j nm at_ cs =>
      Tag j nm (if Nat.eqb j i then dict_set k v at_ else at_)
        (map (setitem_node i k v) cs)
  end.
Definition setitem (i : nat) (k v : string) (s : soup) : soup :=
  map (setitem_node i k v) s.

(** [tag.replace_with(new)] for the tag of identity [i]. *)
Fixpoint replace_with_node (i : nat) (new : node) (n : node) : node :=
  match n with
  | NavigableString _ => n
  | Tag j nm at_ cs =>
      if Nat.eqb j i then new
      else Tag j nm at_ (map (replace_with_node i new) cs)
  end.
Definition replace_with (i : nat) (new : node) (s : soup) : soup :=
  map (replace_with_node i new) s.

(** Identities: those in use, and moving a tree to fresh ones when it is
    inserted into another tree. *)
Definition idents (s : soup) : list nat :=
  omap node_ident (descendants s).

Definition fresh_ident (s : soup) : nat :=
  S (foldr Nat.max 0 (idents s)).

Fixpoint shift_node (k : nat) (n : node) : node :=
  match n with
  | NavigableString _ => n
  | Tag j nm at_ cs => Tag (k + j) nm at_ (map (shift_node k) cs)
  end.

(** The [BeautifulSoup] object itself, as a child of another tree. *)
Definition document (i : nat) (s : soup) : node :=
  Tag i "[document]" [] s.

(** What [html.parser] guarantees: distinct tags are distinct objects,
    and [img] is a void element. *)
Definition void_img (n : node) : bool :=
  match n with
  | Tag _ nm _ cs =>
      if String.eqb nm "img" then
        match cs with [] => true | _ => false end
      else true
  | NavigableString _ => true
  end.

Definition well_formed (s : soup) : Prop :=
  NoDup (idents s) ∧ forallb void_img (descendants s) = true.

End Bs4.

(** ** The environment of the module

    What the module imports and does not define: the [bs4] parser and
    serializer, [pypub.clean], [urllib], [requests], [imghdr], [uuid],
    [tempfile], [re] and [codecs], and the part of the file system that the
    module only reads. *)
Module Requests.
Record Response : Type := {
  status_ok : bool;          (* [raise_for_status()] does not raise *)
  text : string;             (* [.text] *)
  content : option string    (* [.content]; [None]: the attribute is missing *)
}.
End Requests.

Record Env : Type := {
  (* [str(BeautifulSoup(markup, 'html.parser'))] in two steps *)
  html_parser : string -> Bs4.soup;
  soup_str : Bs4.soup -> string;
  (* [html.parser] refuses the markup of a chapter: the constructor
     [BeautifulSoup] raises [ParserRejectedMarkup] *)
  parser_rejects : string -> bool;
  (* [clean.clean], the default [clean_function], and [clean.html_to_xhtml] *)
  clean_function : string -> result string;
  html_to_xhtml : string -> result string;
  (* [urllib.parse.urlparse(url).netloc], [urllib.parse.urljoin(base, url)] *)
  urlparse_netloc : string -> string;
  urljoin : option string -> string -> string;
  (* the bytes [urllib.request.urlretrieve(url, _)] stores, or what it raises *)
  urlretrieve : string -> result string;
  (* [requests.get(url, headers=..., allow_redirects=b)] *)
  requests_get : string -> bool -> result Requests.Response;
  (* [imghdr.what] on the bytes of a file *)
  imghdr_what : string -> option string;
  (* the successive values of [str(uuid.uuid4())] and of [tempfile.mkstemp()] *)
  uuid4 : nat -> string;
  mkstemp : nat -> string;
  (* [open(path, 'wb')] succeeds; [os.path.isdir(path)] *)
  can_open_wb : string -> bool;
  isdir : string -> bool;
  (* [os.path.samefile(a, b)]: two names of one file *)
  samefile : string -> string -> bool;
  (* [cgi.escape(s, quote=True)], or [html.escape] where [cgi] has none *)
  escape : string -> string;
  (* group 1 of the matches of [REGEX_DOCWRITE.finditer], in order *)
  docwrite_groups : string -> list string;
  (* [codecs.decode(s, 'unicode-escape')] *)
  unicode_escape : string -> result string
}.

(** The mutable part of the world: regular files and their bytes, and how
    many random names have been drawn. *)
Record World : Type := {
  files : gmap string string;
  uuid_drawn : nat;
  tmp_drawn : nat
}.

Definition set_file (p data : string) (w : World) : World :=
  {| files := <[p := data]> (files w);
     uuid_drawn := uuid_drawn w; tmp_drawn := tmp_drawn w |}.

Section WithEnv.

Context (env : Env).

(** [os.path.exists(p)] *)
Definition os_path_exists (w : World) (p : string) : bool :=
  (isdir env p || bool_decide (is_Some (files w !! p)))%bool.

(** [open(p, 'wb')]: creates or truncates the file. *)
Definition open_wb (p : string) : M World unit :=
  fun w =>
    if can_open_wb env p then (Ok tt, set_file p "" w)
    else (Raise IOError, w).

(** [f.write(data)] on the file opened at [p]. *)
Definition file_write (p data : string) : M World unit :=
  fun w => (Ok tt, set_file p data w).

(** [shutil.copy(src, dst)]: [SameFileError], an [OSError], when source
    and destination are one file, under one name or two. *)
Definition shutil_copy (src dst : string) : M World unit :=
  fun w =>
    let dst' := if isdir env dst
                then Os.path_join dst (Os.path_basename src) else dst in
    if (String.eqb src dst' || samefile env src dst')%bool
    then (Raise IOError, w)
    else if isdir env src then (Raise IOError, w)
    else match files w !! src with
         | None => (Raise IOError, w)
         | Some data =>
             if can_open_wb env dst' then (Ok tt, set_file dst' data w)
             else (Raise IOError, w)
         end.

(** ** [get_image_type] *)

(** The list the loop runs over: Python concatenates the adjacent literals
    ['.gif' '.png'] into one. *)
Definition image_endings : list string := ["jpg"; "jpeg"; ".gif.png"].

(** The [for] loop: the first ending the URL ends with. *)
Definition suffix_fast_path (url : string) : option string :=
  List.find (fun ending => Str.endswith url ending) image_endings.

(** The [else] branch of the loop: download to a temporary file and let
    [imghdr] look at the bytes; [IOError] gives [None]. *)
Definition sniff_image_type (url : string) : M World (option string) :=
  fun w =>
    let temp_file_name := mkstemp env (tmp_drawn w) in
    if can_open_wb env temp_file_name then
      let w1 := {| files := <[temp_file_name := ""]> (files w);
                   uuid_drawn := uuid_drawn w;
                   tmp_drawn := S (tmp_drawn w) |} in
      match urlretrieve env url with
      | Ok data => (Ok (imghdr_what env data), set_file temp_file_name data w1)
      | Raise e => if is_IOError e then (Ok None, w1) else (Raise e, w1)
      end
    else (Ok None, w).

Definition get_image_type (url : string) : M World (option string) :=
  match suffix_fast_path url with
  | Some ending => ret (Some ending)
  | None => sniff_image_type url
  end.

(** ** [save_image] *)

(** The body of the [try] block: open the target, fetch, write. *)
Definition fetch_to_file (image_url full_image_file_name : string)
  : M World unit :=
  fun w =>
    match open_wb full_image_file_name w with
    | (Raise e, w') =>
        (Raise (if is_IOError e then ImageErrorException image_url else e), w')
    | (Ok _, w1) =>
        match requests_get env image_url true with
        | Raise e =>
            (Raise (if is_IOError e then ImageErrorException image_url else e),
             w1)
        | Ok requests_object =>
            match Requests.content requests_object with
            | None => (Raise (ImageErrorException image_url), w1)
            | Some data => file_write full_image_file_name data w1
            end
        end
    end.

Definition save_image (image_url image_directory : string) (image_name : pyval)
  : M World string :=
  (image_type <- get_image_type image_url ;;
   match image_type with
   | None => raise (ImageErrorException image_url)
   | Some image_type =>
       match image_name with
       | PyStr image_name =>
           let full_image_file_name :=
             Os.path_join image_directory (image_name +:+ "." +:+ image_type) in
           fun w =>
             if os_path_exists w image_url then
               (shutil_copy image_url full_image_file_name ;;;
                ret image_type) w
             else
               (fetch_to_file image_url full_image_file_name ;;;
                ret image_type) w
       | _ =>
           raise (TypeError ("unsupported operand type(s) for +: '" +:+
                             type_name image_name +:+ "' and 'str'"))
       end
   end)%py.

(** ** [_replace_image] *)

(** The [image_tag] argument: a reference to a tag of the tree, or an
    object of another type, given by [str(type(image_tag))]. *)
Inductive tag_arg : Type :=
  | TagRef (ident : nat)
  | NotATag (type_str : string).

(** [if image_name is None: image_name = str(uuid.uuid4())] *)
Definition default_image_name (image_name : pyval) (w : World)
  : pyval * World :=
  match image_name with
  | PyNone =>
      (PyStr (uuid4 env (uuid_drawn w)),
       {| files := files w; uuid_drawn := S (uuid_drawn w);
          tmp_drawn := tmp_drawn w |})
  | _ => (image_name, w)
  end.

Definition images_missing (ebook_folder : string) : exn :=
  ValueError (ebook_folder +:+
    " doesn't exist or doesn't contain a subdirectory images").

Definition _replace_image (image_url : string) (image_tag : tag_arg)
    (ebook_folder : string) (image_name : pyval)
  : M (World * Bs4.soup) unit :=
  fun '(w, tree) =>
    match image_tag with
    | NotATag ty =>
        (Raise (TypeError ("image_tag cannot be of type " +:+ ty)), (w, tree))
    | TagRef i =>
        let '(image_name, w0) := default_image_name image_name w in
        let image_full_path := Os.path_join ebook_folder "images" in
        if os_path_exists w0 image_full_path then
          match save_image image_url image_full_path image_name w0 with
          | (Ok image_extension, w1) =>
              match image_name with
              | PyStr nm =>
                  (Ok tt,
                   (w1, Bs4.setitem i "src"
                          ("images" +:+ "/" +:+ nm +:+ "." +:+ image_extension)
                          tree))
              | _ => (Ok tt, (w1, Bs4.decompose i tree))
              end
          | (Raise (ImageErrorException _), w1) =>
              (Ok tt, (w1, Bs4.decompose i tree))
          | (Raise AssertionError, w1) =>
              (Raise (images_missing ebook_folder), (w1, tree))
          | (Raise (TypeError _), w1) => (Ok tt, (w1, Bs4.decompose i tree))
          | (Raise e, w1) => (Raise e, (w1, tree))
          end
        else (Raise (images_missing ebook_folder), (w0, tree))
    end.

End WithEnv.

(** [for x in l: body(x)] in the state-and-exception monad. *)
Fixpoint for_each {S A} (body : A -> M S unit) (l : list A) : M S unit :=
  match l with
  | [] => ret tt
  | x :: l' => bind (body x) (fun _ => for_each body l')
  end.

(** ** class [Chapter] *)
Module Chapter.

Record t : Type := {
  title : string;
  content : string;
  _content_tree : Bs4.soup;
  url : option string;
  html_title : string
}.

Section Methods.

Context (env : Env).

(** [_validate_input_types]: the four assertions in order.  The result is
    the two arguments at the type [str] the assertions establish. *)
Definition _validate_input_types (content title : pyval)
  : result (string * string) :=
  match content with
  | PyStr c =>
      match title with
      | PyStr t =>
          if String.eqb t "" then Raise (ValueError "title cannot be empty string")
          else if String.eqb c "" then
                 Raise (ValueError "content cannot be empty string")
          else Ok (c, t)
      | _ => Raise (TypeError "title must be a string")
      end
  | _ => Raise (TypeError "content must be a string")
  end.

Definition __init__ (content title : pyval) (url : option string) : result t :=
  rbind (_validate_input_types content title) (fun '(c, t) =>
    if parser_rejects env c then Raise ParserRejectedMarkup
    else
      Ok {| title := t;
            content := c;
            _content_tree := html_parser env c;
            url := url;
            html_title := escape env t |}).

Definition write (self : t) (file_name : string) : M World unit :=
  if String.eqb (Str.last_chars 6 file_name) ".xhtml" then
    (open_wb env file_name ;;;
     file_write file_name (Str.encode_utf8 (content self)))%py
  else raise (ValueError "filename must end with .xhtml").

Definition get_url (self : t) : result string :=
  match url self with
  | Some u => Ok u
  | None => Raise NoUrlError
  end.

Definition _get_image_urls (self : t) : list (Bs4.node * string) :=
  let image_nodes := Bs4.find_all "img" (_content_tree self) in
  let image_nodes_filtered :=
    filter (fun node => Bs4.has_attr node "src" = true) image_nodes in
  let full_image_urls :=
    map (fun img =>
           urljoin env (url self)
             (match Bs4.getitem img "src" with Ok v => v | Raise _ => "" end))
        image_nodes_filtered in
  zip image_nodes_filtered full_image_urls.

Definition node_ref (n : Bs4.node) : tag_arg :=
  match n with
  | Bs4.Tag i _ _ _ => TagRef i
  | Bs4.NavigableString _ => NotATag "<class 'bs4.element.NavigableString'>"
  end.

Definition set_tree (self : t) (tree : Bs4.soup) : t :=
  {| title := title self; content := content self; _content_tree := tree;
     url := url self; html_title := html_title self |}.

Definition set_content (self : t) (c : string) : t :=
  {| title := title self; content := c; _content_tree := _content_tree self;
     url := url self; html_title := html_title self |}.

(** The [for] loop of [_replace_images_in_chapter], on the world and the
    content tree. *)
Definition replace_images_loop (ebook_folder : string)
    (image_url_list : list (Bs4.node * string))
  : M (World * Bs4.soup) unit :=
  for_each (fun '(image_tag, image_url) =>
              _replace_image env image_url (node_ref image_tag)
                ebook_folder PyNone)
           image_url_list.

Definition _replace_images_in_chapter (ebook_folder : string)
  : M (World * t) unit :=
  fun '(w, self) =>
    let image_url_list := _get_image_urls self in
    match replace_images_loop ebook_folder image_url_list
            (w, _content_tree self) with
    | (Raise e, (w', tree')) => (Raise e, (w', set_tree self tree'))
    | (Ok _, (w', tree')) =>
        let unformatted_html_unicode_string := soup_str env tree' in
        let unformatted_html_unicode_string :=
          Str.replace unformatted_html_unicode_string "<br>" "<br/>" in
        (Ok tt,
         (w', set_content (set_tree self tree') unformatted_html_unicode_string))
    end.

End Methods.
End Chapter.

(** ** class [ChapterFactory] *)
Module ChapterFactory.

(** What [requests.get(url, headers=..., allow_redirects=False)] does for
    [create_chapter_from_url]: it returns a response, or raises an
    exception of one of the classes the method tells apart.  In [requests],
    [SSLError] is a subclass of [ConnectionError]. *)
Inductive get_outcome : Type :=
  | Returned (request_object : Requests.Response)
  | MissingSchema
  | ConnectionError
  | SSLError
  | Raised (e : exn).

Section Methods.

Context (env : Env).

(** The [try] block that infers a title: [root.title.string], and
    ['Ebook Chapter'] when [root.title] is [None] ([AttributeError]). *)
Definition infer_title (html_string : string) : pyval :=
  let root := html_parser env html_string in
  match Bs4.find "title" root with
  | None => PyStr "Ebook Chapter"
  | Some title_node =>
      match Bs4.tag_string title_node with
      | Some s => PyStr s
      | None => PyNone
      end
  end.

Definition create_chapter_from_string (html_string : string)
    (url : option string) (title : pyval) : result Chapter.t :=
  rbind (clean_function env html_string) (fun clean_html_string =>
  rbind (html_to_xhtml env clean_html_string) (fun clean_xhtml_string =>
    let title :=
      match title with
      | PyNone => infer_title html_string
      | _ => title
      end in
    Chapter.__init__ env (PyStr clean_xhtml_string) title url)).

(** The two other sources end in [self.create_chapter_from_string], the
    method of the class of [self]: [self_create_chapter_from_string]. *)
Section Sources.

Context (self_create_chapter_from_string :
           string -> option string -> pyval -> result Chapter.t).

(** [requests_get_page] is the [requests.get] call of the method.  The
    first [except] clause takes [MissingSchema] and [ConnectionError], and
    with the latter its subclass [SSLError]; other exceptions are not
    caught. *)
Definition create_chapter_from_url (requests_get_page : string -> get_outcome)
    (url : string) (title : pyval) : result Chapter.t :=
  match requests_get_page url with
  | MissingSchema | ConnectionError | SSLError =>
      Raise (ValueError (url +:+ " is an invalid url or no network connection"))
  | Raised e => Raise e
  | Returned request_object =>
      let unicode_string := Requests.text request_object in
      self_create_chapter_from_string unicode_string (Some url) title
  end.

(** [codecs.open(file_name, 'r', encoding='utf-8')] and [f.read()]: the
    bytes of the file, decoded by [utf8_decode]; a name that is no regular
    file of the world is an [IOError].  Every regular file can be read. *)
Definition create_chapter_from_file (utf8_decode : string -> result string)
    (w : World) (file_name : string) (url : option string) (title : pyval)
  : result Chapter.t :=
  if isdir env file_name then Raise IOError
  else match files w !! file_name with
       | None => Raise IOError
       | Some data =>
           rbind (utf8_decode data) (fun content_string =>
             self_create_chapter_from_string content_string url title)
       end.

End Sources.

End Methods.
End ChapterFactory.

(** ** class [ChapterGithubGistFactory] *)
Module ChapterGithubGistFactory.

Definition GIST_NETLOC : string := "gist.github.com".
Definition GIST_BLOB_NUM : string := "blob-num".
Definition GIST_BLOB_CODE : string := "blob-code".
Definition GIST_META : string := "gist-meta".

(** ['{1:>{0}}: {2}'.format(width, line, code)] *)
Definition format_line (width : nat) (line code : string) : string :=
  Str.rjust width line +:+ ": " +:+ code.

(** The opening tag of the block, [pre] with the style [font-size: 80%;]
    between double quotes. *)
Definition pre_open : string :=
  "<pre style=" +:+ Str.dquote +:+ "font-size: 80%;" +:+ Str.dquote +:+ ">".

(** The second loop of [process_gist] and the two brackets around it: the
    list [gist].  [last_line] is the integer [0] until a row has been
    read; [len] of an integer is a [TypeError]. *)
Definition gist_lines (lines : list (string * string)) (last_line : pyval)
  : result (list string) :=
  rbind
    ((fix go (l : list (string * string)) : result (list string) :=
        match l with
        | [] => Ok []
        | (line, code) :: l' =>
            match last_line with
            | PyStr last =>
                rbind (go l') (fun rest =>
                  Ok (format_line (String.length last + 1) line code :: rest))
            | _ => Raise (TypeError "object of type 'int' has no len()")
            end
        end) lines)
    (fun body => Ok (pre_open :: body ++ ["</pre>"])).

Section Methods.

Context (env : Env).

(** One turn of the first loop of [process_gist]: the pair a row gives. *)
Definition gist_row (trow : Bs4.node) : result (string * string) :=
  let tdiv_line :=
    Bs4.find_class "td" GIST_BLOB_NUM (Bs4.node_contents trow) in
  let tdiv_code :=
    Bs4.find_class "td" GIST_BLOB_CODE (Bs4.node_contents trow) in
  match tdiv_line with
  | None => Raise (TypeError "'NoneType' object is not subscriptable")
  | Some tdiv_line =>
      rbind (Bs4.getitem tdiv_line "data-line-number") (fun number =>
        match tdiv_code with
        | None => Raise AttributeError
        | Some tdiv_code => Ok (number, Bs4.get_text tdiv_code)
        end)
  end.

(** The first loop: [lines] and [last_line] after all rows. *)
Fixpoint gist_rows (trows : list Bs4.node) (lines : list (string * string))
    (last_line : pyval) : result (list (string * string) * pyval) :=
  match trows with
  | [] => Ok (lines, last_line)
  | trow :: trows' =>
      rbind (gist_row trow) (fun '(number, code) =>
        gist_rows trows' (lines ++ [(number, code)]) (PyStr number))
  end.

(** [new_content]: the decoded arguments of the [document.write] calls. *)
Fixpoint docwrite_content (groups : list string) (new_content : string)
  : result string :=
  match groups with
  | [] => Ok new_content
  | g :: groups' =>
      rbind (unicode_escape env (Str.replace g "\/" "/")) (fun decoded =>
        docwrite_content groups' (new_content +:+ decoded))
  end.

(** [gist_soup.append(meta)] inside its [try]: [None] cannot be appended
    ([ValueError], passed over); a tag moves to the end of [gist_soup]. *)
Definition append_meta (gist_soup : Bs4.soup) (meta : option Bs4.node)
  : Bs4.soup :=
  match meta with
  | None => gist_soup
  | Some m => gist_soup ++ [Bs4.shift_node (Bs4.fresh_ident gist_soup) m]
  end.

Definition process_gist (gist_link : string) : result Bs4.soup :=
  rbind (requests_get env gist_link true) (fun req =>
  if negb (Requests.status_ok req) then Raise HTTPError else
  let gist_data := Requests.text req in
  rbind (docwrite_content (docwrite_groups env gist_data) "") (fun new_content =>
  let soup := html_parser env new_content in
  rbind (gist_rows (Bs4.find_all "tr" soup) [] (PyInt 0))
    (fun '(lines, last_line) =>
  rbind (gist_lines lines last_line) (fun gist =>
  let gist_soup := html_parser env (Str.join Os.linesep gist) in
  let meta := Bs4.find_class "div" GIST_META soup in
  Ok (append_meta gist_soup meta))))).

(** The loop over the [script] tags.  The variable [url] of the loop is the
    parameter [url] of the method. *)
Fixpoint expand_gists (scripts : list Bs4.node) (url : option string)
    (soup : Bs4.soup) : result (option string * Bs4.soup) :=
  match scripts with
  | [] => Ok (url, soup)
  | script :: scripts' =>
      match Bs4.getitem script "src" with
      | Raise (KeyError _) => expand_gists scripts' url soup
      | Raise e => Raise e
      | Ok src =>
          let url := Some src in
          if negb (String.eqb (urlparse_netloc env src) GIST_NETLOC)
          then expand_gists scripts' url soup
          else
            match process_gist src with
            | Raise (KeyError _) => expand_gists scripts' url soup
            | Raise e => Raise e
            | Ok gist_soup =>
                let fresh := Bs4.fresh_ident soup in
                let new :=
                  Bs4.document fresh (map (Bs4.shift_node (S fresh)) gist_soup) in
                let soup :=
                  match Bs4.node_ident script with
                  | Some i => Bs4.replace_with i new soup
                  | None => soup
                  end in
                expand_gists scripts' url soup
            end
      end
  end.

Definition create_chapter_from_string (html_string : string)
    (url : option string) (title : pyval) : result Chapter.t :=
  let soup := html_parser env html_string in
  rbind (expand_gists (Bs4.find_all "script" soup) url soup)
    (fun '(url, soup) =>
       ChapterFactory.create_chapter_from_string env (soup_str env soup)
         url title).

End Methods.
End ChapterGithubGistFactory.

(** ** A concrete environment

    One page with a third-party script, one gist, one page with an empty
    title, one chapter with images on a host that does not answer.  The
    examples and the instances of the theorems below run in it. *)
Module Sample.
Import Bs4.

Definition page_url : string := "http://example.com/page".
Definition script_url : string := "https://cdn.example.com/app.js".
Definition gist_url : string := "https://gist.github.com/user/abc.js".
Definition jpg_url : string := "http://unreachable.invalid/pic.jpg".
Definition png_url : string := "http://unreachable.invalid/logo.png".

(** The page that loads a script of another host. *)
Definition script_page : string :=
  "<html><head><title>Notes</title></head><body>" +:+
  "<script src='https://cdn.example.com/app.js'></script><p>text</p>" +:+
  "</body></html>".
Definition script_page_tree : soup :=
  [Tag 0 "html" []
     [Tag 1 "head" [] [Tag 2 "title" [] [NavigableString "Notes"]];
      Tag 3 "body" []
        [Tag 4 "script" [("src", script_url)] [];
         Tag 5 "p" [] [NavigableString "text"]]]].

(** A page whose title element is empty. *)
Definition untitled_page : string :=
  "<html><head><title></title></head><body><p>text</p></body></html>".
Definition untitled_page_tree : soup :=
  [Tag 0 "html" []
     [Tag 1 "head" [] [Tag 2 "title" [] []];
      Tag 3 "body" [] [Tag 4 "p" [] [NavigableString "text"]]]].

(** The markup a gist script writes: three rows, numbered 10 to 12. *)
Definition gist_row_markup (number code : string) : string :=
  "<tr><td class='blob-num js-line-number' data-line-number='" +:+ number +:+
  "'></td><td class='blob-code blob-code-inner'>" +:+ code +:+ "</td></tr>".
Definition gist_fragment : string :=
  "<div class='gist'><table>" +:+ gist_row_markup "10" "a" +:+
  gist_row_markup "11" "b" +:+ gist_row_markup "12" "c" +:+
  "</table><div class='gist-meta'>hosted by GitHub</div></div>".
Definition gist_row_tree (i : nat) (number code : string) : node :=
  Tag i "tr" []
    [Tag (i + 1) "td"
       [("class", "blob-num js-line-number"); ("data-line-number", number)] [];
     Tag (i + 2) "td" [("class", "blob-code blob-code-inner")]
       [NavigableString code]].
Definition gist_fragment_tree : soup :=
  [Tag 0 "div" [("class", "gist")]
     [Tag 1 "table" []
        [gist_row_tree 2 "10" "a"; gist_row_tree 5 "11" "b";
         gist_row_tree 8 "12" "c"];
      Tag 11 "div" [("class", "gist-meta")]
        [NavigableString "hosted by GitHub"]]].

(** The script as served: one [document.write] call, slashes escaped. *)
Definition gist_escaped : string := Str.replace gist_fragment "/" "\/".
Definition gist_js : string := "document.write('" +:+ gist_escaped +:+ "')".

(** The block [process_gist] builds for these rows, and its parse. *)
Definition gist_block : string :=
  Str.join Os.linesep
    [ChapterGithubGistFactory.pre_open; " 10: a"; " 11: b"; " 12: c"; "</pre>"].
Definition gist_block_tree : soup :=
  [Tag 0 "pre" [("style", "font-size: 80%;")]
     [NavigableString
        (Os.linesep +:+ Str.join Os.linesep [" 10: a"; " 11: b"; " 12: c"]
           +:+ Os.linesep)]].

(** A chapter with two images that have a source and one without. *)
Definition image_page : string :=
  "<p>one<img src='http://unreachable.invalid/pic.jpg'/></p>" +:+
  "<p>two<img alt='none'/><img src='http://unreachable.invalid/logo.png'/></p>".
Definition image_page_tree : soup :=
  [Tag 0 "p" [] [NavigableString "one"; Tag 1 "img" [("src", jpg_url)] []];
   Tag 2 "p" []
     [NavigableString "two"; Tag 3 "img" [("alt", "none")] [];
      Tag 4 "img" [("src", png_url)] []]].

Definition parse (markup : string) : soup :=
  if String.eqb markup script_page then script_page_tree
  else if String.eqb markup untitled_page then untitled_page_tree
  else if String.eqb markup gist_fragment then gist_fragment_tree
  else if String.eqb markup gist_block then gist_block_tree
  else if String.eqb markup image_page then image_page_tree
  else [NavigableString markup].

(** A serializer for the trees above. *)
Fixpoint attrs_str (at_ : list (string * string)) : string :=
  match at_ with
  | [] => ""
  | (k, v) :: at' => " " +:+ k +:+ "='" +:+ v +:+ "'" +:+ attrs_str at'
  end.
Fixpoint node_str (n : node) : string :=
  match n with
  | NavigableString s => s
  | Tag _ nm at_ cs =>
      let inner := fold_right (fun c acc => node_str c +:+ acc) "" cs in
      if String.eqb nm "[document]" then inner
      else if (String.eqb nm "img" || String.eqb nm "br")%bool
           then "<" +:+ nm +:+ attrs_str at_ +:+ "/>"
      else "<" +:+ nm +:+ attrs_str at_ +:+ ">" +:+ inner +:+
           "</" +:+ nm +:+ ">"
  end.
Definition render (s : soup) : string :=
  fold_right (fun c acc => node_str c +:+ acc) "" s.

(** The host of an absolute [http] or [https] URL. *)
Fixpoint upto_slash (s : string) : string :=
  match s with
  | EmptyString => EmptyString
  | String c s' => if Ascii.eqb c "/" then EmptyString else String c (upto_slash s')
  end.
Definition netloc (u : string) : string :=
  if Str.startswith u "https://" then upto_slash (Str.drop 8 u)
  else if Str.startswith u "http://" then upto_slash (Str.drop 7 u)
  else "".

Definition html_escape (s : string) : string :=
  Str.replace
    (Str.replace
       (Str.replace (Str.replace (Str.replace s "&" "&amp;") "<" "&lt;")
          ">" "&gt;")
       Str.dquote "&quot;")
    "'" "&#x27;".

Definition digit (n : nat) : string :=
  String (ascii_of_nat (48 + n mod 10)) EmptyString.

(** Only the gist host answers; every other fetch fails to connect. *)
Definition env : Env := {|
  html_parser := parse;
  soup_str := render;
  parser_rejects := fun markup => Str.contains markup "<![foo";
  clean_function := fun s => Ok s;
  html_to_xhtml := fun s => Ok s;
  urlparse_netloc := netloc;
  urljoin := fun _ u => u;
  urlretrieve := fun _ => Raise IOError;
  requests_get := fun u _ =>
    if String.eqb u gist_url
    then Ok {| Requests.status_ok := true; Requests.text := gist_js;
               Requests.content := Some gist_js |}
    else Raise RequestException;
  imghdr_what := fun data =>
    if Str.startswith data "GIF8" then Some "gif" else None;
  uuid4 := fun n => "6f1c2d3e-0000-4000-8000-00000000000" +:+ digit n;
  mkstemp := fun n => "/tmp/tmp" +:+ digit n;
  can_open_wb := fun p =>
    (Str.startswith p "/tmp/" || Str.startswith p "book/")%bool;
  isdir := fun p =>
    (String.eqb p "/tmp" || String.eqb p "book" || String.eqb p "book/images")%bool;
  samefile := fun a b =>
    (String.eqb a ("./" +:+ b) || String.eqb b ("./" +:+ a))%bool;
  escape := html_escape;
  docwrite_groups := fun s => if String.eqb s gist_js then [gist_escaped] else [];
  unicode_escape := fun s => Ok s
|}.

(** The world at the start: no regular file of interest. *)
Definition world : World :=
  {| files := ∅; uuid_drawn := 0; tmp_drawn := 0 |}.

(** The chapter built from [image_page]. *)
Definition image_chapter : Chapter.t :=
  {| Chapter.title := "Images";
     Chapter.content := image_page;
     Chapter._content_tree := image_page_tree;
     Chapter.url := Some page_url;
     Chapter.html_title := "Images" |}.

(** The world after [save_image] has failed on [jpg_url] with the name
    [pic]. *)
Definition world_after_failed_save : World :=
  set_file "book/images/pic.jpg" "" world.

(** A chapter of plain text, with or without a URL. *)
Definition text_chapter (url : option string) : Chapter.t :=
  {| Chapter.title := "One";
     Chapter.content := "<p>text</p>";
     Chapter._content_tree := parse "<p>text</p>";
     Chapter.url := url;
     Chapter.html_title := "One" |}.

End Sample.

(** ** The functions the module exports

    [create_chapter_from_url], [create_chapter_from_file] and
    [create_chapter_from_string] are the methods of one
    [ChapterGithubGistFactory()]: the inherited methods call the
    gist-expanding [create_chapter_from_string]. *)
Definition create_chapter_from_string (env : Env)
  : string -> option string -> pyval -> result Chapter.t :=
  ChapterGithubGistFactory.create_chapter_from_string env.

Definition create_chapter_from_url (env : Env)
  : (string -> ChapterFactory.get_outcome) -> string -> pyval
    -> result Chapter.t :=
  ChapterFactory.create_chapter_from_url
    (ChapterGithubGistFactory.create_chapter_from_string env).

Definition create_chapter_from_file (env : Env)
  : (string -> result string) -> World -> string -> option string -> pyval
    -> result Chapter.t :=
  ChapterFactory.create_chapter_from_file env
    (ChapterGithubGistFactory.create_chapter_from_string env).

(** ** A UTF-8 decoder

    The decoder of the byte strings that [Str.encode_utf8] produces: one
    byte below 128, or a lead byte 194 or 195 and one continuation byte.
    Anything else is refused. *)
Module Utf8.

Definition continuation (b : ascii) : bool :=
  (Nat.leb 128 (nat_of_ascii b) && Nat.ltb (nat_of_ascii b) 192)%bool.

Fixpoint decode (data : string) : result string :=
  match data with
  | EmptyString => Ok EmptyString
  | String b data' =>
      let n := nat_of_ascii b in
      if Nat.ltb n 128 then rbind (decode data') (fun s => Ok (String b s))
      else if (Nat.eqb n 194 || Nat.eqb n 195)%bool then
        match data' with
        | String b2 data'' =>
            if continuation b2 then
              rbind (decode data'') (fun s =>
                Ok (String (ascii_of_nat ((n - 192) * 64 + (nat_of_ascii b2 - 128)))
                      s))
            else Raise UnicodeDecodeError
        | EmptyString => Raise UnicodeDecodeError
        end
      else Raise UnicodeDecodeError
  end.

End Utf8.

(** ** A second environment: the image host answers *)
Module Online.

Definition cat_url : string := "http://example.com/cat.jpg".
Definition cat_bytes : string := "JFIF-bytes-of-a-cat".
Definition local_jpg : string := "pics/dog.jpg".
Definition dog_bytes : string := "JFIF-bytes-of-a-dog".

(** An image whose URL has a space, on the host that does not answer. *)
Definition spaced_url : string := "http://unreachable.invalid/a b.png".
Definition spaced_page : string :=
  "<p>three<img src='http://unreachable.invalid/a b.png'/></p>".
Definition spaced_tree : Bs4.soup :=
  [Bs4.Tag 0 "p" []
     [Bs4.NavigableString "three"; Bs4.Tag 1 "img" [("src", spaced_url)] []]].

Definition env : Env := {|
  html_parser := fun markup =>
    if String.eqb markup spaced_page then spaced_tree
    else html_parser Sample.env markup;
  soup_str := soup_str Sample.env;
  parser_rejects := parser_rejects Sample.env;
  clean_function := clean_function Sample.env;
  html_to_xhtml := html_to_xhtml Sample.env;
  urlparse_netloc := urlparse_netloc Sample.env;
  urljoin := urljoin Sample.env;
  urlretrieve := fun u =>
    if String.eqb u cat_url then Ok cat_bytes
    else if String.eqb u spaced_url then Raise InvalidURL
    else if String.eqb u "cat.bmp" then Raise (ValueError "unknown url type: 'cat.bmp'")
    else Raise IOError;
  requests_get := fun u _ =>
    if String.eqb u cat_url
    then Ok {| Requests.status_ok := true; Requests.text := cat_bytes;
               Requests.content := Some cat_bytes |}
    else Raise RequestException;
  imghdr_what := imghdr_what Sample.env;
  uuid4 := uuid4 Sample.env;
  mkstemp := mkstemp Sample.env;
  can_open_wb := can_open_wb Sample.env;
  isdir := isdir Sample.env;
  samefile := samefile Sample.env;
  escape := escape Sample.env;
  docwrite_groups := docwrite_groups Sample.env;
  unicode_escape := unicode_escape Sample.env
|}.

(** A world with one image on the local disk. *)
Definition world : World :=
  {| files := {[ local_jpg := dog_bytes ]}; uuid_drawn := 0; tmp_drawn := 0 |}.

(** The chapter built from [spaced_page]. *)
Definition spaced_chapter : Chapter.t :=
  {| Chapter.title := "Spaced";
     Chapter.content := spaced_page;
     Chapter._content_tree := spaced_tree;
     Chapter.url := None;
     Chapter.html_title := "Spaced" |}.

(** The page fetch of [create_chapter_from_url]: one page is served, with
    the status 404; one host has no route; one URL has no scheme. *)
Definition page_get (url : string) : ChapterFactory.get_outcome :=
  if String.eqb url Sample.page_url then
    ChapterFactory.Returned
      {| Requests.status_ok := false; Requests.text := "<p>text</p>";
         Requests.content := Some "<p>text</p>" |}
  else if String.eqb url "example.com/page" then ChapterFactory.MissingSchema
  else ChapterFactory.ConnectionError.

End Online.

(** ** A third environment: pages that embed gists *)
Module Gists.
Import Bs4.

Definition gone_url : string := "https://gist.github.com/user/gone.js".
Definition nonum_url : string := "https://gist.github.com/user/nonum.js".
Definition empty_url : string := "https://gist.github.com/user/empty.js".

(** A page with one script, of the given source. *)
Definition page (src : string) : string :=
  "<p>code</p><script src='" +:+ src +:+ "'></script>".
Definition page_tree (src : string) : soup :=
  [Tag 0 "p" [] [NavigableString "code"]; Tag 1 "script" [("src", src)] []].

(** A gist whose only row has a number cell without [data-line-number]. *)
Definition nonum_fragment : string :=
  "<table><tr><td class='blob-num'></td>" +:+
  "<td class='blob-code'>x</td></tr></table>".
Definition nonum_tree : soup :=
  [Tag 0 "table" []
     [Tag 1 "tr" []
        [Tag 2 "td" [("class", "blob-num")] [];
         Tag 3 "td" [("class", "blob-code")] [NavigableString "x"]]]].
Definition nonum_escaped : string := Str.replace nonum_fragment "/" "\/".
Definition nonum_js : string := "document.write('" +:+ nonum_escaped +:+ "')".

(** A gist script without any [document.write] call. *)
Definition empty_js : string := "/* nothing to show */".

(** The block of a gist without rows, and its parse. *)
Definition empty_block : string :=
  Str.join Os.linesep [ChapterGithubGistFactory.pre_open; "</pre>"].
Definition empty_block_tree : soup :=
  [Tag 0 "pre" [("style", "font-size: 80%;")] [NavigableString Os.linesep]].

Definition parse (markup : string) : soup :=
  if String.eqb markup (page Sample.gist_url) then page_tree Sample.gist_url
  else if String.eqb markup (page gone_url) then page_tree gone_url
  else if String.eqb markup (page nonum_url) then page_tree nonum_url
  else if String.eqb markup nonum_fragment then nonum_tree
  else if String.eqb markup empty_block then empty_block_tree
  else Sample.parse markup.

Definition answer (body : string) (ok : bool) : Requests.Response :=
  {| Requests.status_ok := ok; Requests.text := body;
     Requests.content := Some body |}.

(** The gist host answers: one gist is gone (status 404), one has a row
    without number, one writes nothing. *)
Definition env : Env := {|
  html_parser := parse;
  soup_str := soup_str Sample.env;
  parser_rejects := parser_rejects Sample.env;
  clean_function := clean_function Sample.env;
  html_to_xhtml := html_to_xhtml Sample.env;
  urlparse_netloc := urlparse_netloc Sample.env;
  urljoin := urljoin Sample.env;
  urlretrieve := urlretrieve Sample.env;
  requests_get := fun u b =>
    if String.eqb u gone_url then Ok (answer "Not Found" false)
    else if String.eqb u nonum_url then Ok (answer nonum_js true)
    else if String.eqb u empty_url then Ok (answer empty_js true)
    else requests_get Sample.env u b;
  imghdr_what := imghdr_what Sample.env;
  uuid4 := uuid4 Sample.env;
  mkstemp := mkstemp Sample.env;
  can_open_wb := can_open_wb Sample.env;
  isdir := isdir Sample.env;
  samefile := samefile Sample.env;
  escape := escape Sample.env;
  docwrite_groups := fun s =>
    if String.eqb s nonum_js then [nonum_escaped]
    else docwrite_groups Sample.env s;
  unicode_escape := unicode_escape Sample.env
|}.

End Gists.

(** ** Notions used to state the properties *)

(** What is left of a node when the tag of identity [i] is removed from
    below it. *)
Definition decompose_below (i : nat) (n : Bs4.node) : Bs4.node :=
  match n with
  | Bs4.Tag j nm at_ cs => Bs4.Tag j nm at_ (Bs4.decompose i cs)
  | Bs4.NavigableString _ => n
  end.

(** Every tag of identity [i] in the tree is a leaf. *)
Definition leaf_at (i : nat) (s : Bs4.soup) : Prop :=
  ∀ m, m ∈ Bs4.descendants s → Bs4.node_ident m = Some i →
       Bs4.node_contents m = [].

(** The identities of the tags named [nm], in document order. *)
Definition idents_named (nm : string) (s : Bs4.soup) : list nat :=
  omap Bs4.node_ident (Bs4.find_all nm s).

(** Both ways to fetch [u] fail with an [IOError]: the host cannot be
    reached. *)
Definition fetch_fails (env : Env) (u : string) : bool :=
  (match urlretrieve env u with
   | Raise e => is_IOError e
   | Ok _ => false
   end &&
   match requests_get env u true with
   | Raise e => is_IOError e
   | Ok _ => false
   end)%bool.

(** [u] is no path of the local file system: nothing exists under that
    name in [w], and no file can be created under it. *)
Definition not_a_local_path (env : Env) (w : World) (u : string) : bool :=
  (negb (can_open_wb env u) && negb (os_path_exists env w u))%bool.

(** The [img] tags of a tree that have a [src]. *)
Definition images_with_src (tree : Bs4.soup) : list Bs4.node :=
  filter (fun n => Bs4.has_attr n "src" = true) (Bs4.find_all "img" tree).

(** Every [img] tag of the content tree that has a [src] is on a host that
    cannot be reached: fetching its URL, joined to the URL of the chapter,
    fails with an [IOError], and the URL is no local path. *)
Definition image_tags_unreachable (env : Env) (w : World) (self : Chapter.t)
  : bool :=
  forallb (fun n =>
             match Bs4.getitem n "src" with
             | Ok src =>
                 let u := urljoin env (Chapter.url self) src in
                 (fetch_fails env u && not_a_local_path env w u)%bool
             | Raise _ => true
             end)
    (Bs4.find_all "img" (Chapter._content_tree self)).

(** The script is none that [ChapterGithubGistFactory] expands: it has no
    [src], or its [src] is on another host than the gist host. *)
Definition not_a_gist (env : Env) (script : Bs4.node) : bool :=
  match Bs4.getitem script "src" with
  | Ok src =>
      negb (String.eqb (urlparse_netloc env src)
              ChapterGithubGistFactory.GIST_NETLOC)
  | Raise (KeyError _) => true
  | Raise _ => false
  end.

(** The value of the variable [url] after the loop has seen [scripts]. *)
Definition url_after_scripts (url : option string) (scripts : list Bs4.node)
  : option string :=
  foldl (fun u script =>
           match Bs4.getitem script "src" with
           | Ok src => Some src
           | Raise _ => u
           end) url scripts.


(** * Properties *)

(** ** Strings *)

Lemma string_app_cons (c : ascii) (a b : string) :
  String c a +:+ b = String c (a +:+ b).
Proof. reflexivity. Qed.

Lemma string_app_nil (b : string) : "" +:+ b = b.
Proof. reflexivity. Qed.

Lemma string_length_app (a b : string) :
  String.length (a +:+ b) = String.length a + String.length b.
Proof. induction a as [|c a IH]; simpl; [reflexivity | now rewrite IH]. Qed.




(** ** [get_image_type] *)

(** C5. A URL that ends in [.png] or [.gif], and in none of [jpg], [jpeg]
    and [.gif.png], is matched by no ending of the loop: [get_image_type]
    runs its fallback, which downloads the resource to a temporary file and
    returns what [imghdr] finds in the bytes. *)
Theorem get_image_type_png_gif_sniffs (env : Env) (url : string) :
  Str.endswith url ".png" = true ∨ Str.endswith url ".gif" = true →
  Str.endswith url "jpg" = false →
  Str.endswith url "jpeg" = false →
  Str.endswith url ".gif.png" = false →
  suffix_fast_path url = None ∧
  (∀ w, get_image_type env url w = sniff_image_type env url w) ∧
  (∀ w data,
     can_open_wb env (mkstemp env (tmp_drawn w)) = true →
     urlretrieve env url = Ok data →
     (get_image_type env url w).1 = Ok (imghdr_what env data)).
Proof.
  intros _ Hjpg Hjpeg Hgp.
  assert (Hfast : suffix_fast_path url = None).
  { unfold suffix_fast_path, image_endings. simpl.
    now rewrite Hjpg, Hjpeg, Hgp. }
  split; [exact Hfast|]. split.
  - intros w. unfold get_image_type. now rewrite Hfast.
  - intros w data Hopen Hdata. unfold get_image_type. rewrite Hfast.
    unfold sniff_image_type. now rewrite Hopen, Hdata.
Qed.

Lemma get_image_type_png_gif_sniffs_witness :
  suffix_fast_path Sample.png_url = None ∧
  (∀ w, get_image_type Sample.env Sample.png_url w
        = sniff_image_type Sample.env Sample.png_url w) ∧
  (∀ w data,
     can_open_wb Sample.env (mkstemp Sample.env (tmp_drawn w)) = true →
     urlretrieve Sample.env Sample.png_url = Ok data →
     (get_image_type Sample.env Sample.png_url w).1
     = Ok (imghdr_what Sample.env data)).
Proof.
  apply (get_image_type_png_gif_sniffs Sample.env Sample.png_url);
    [left; reflexivity | reflexivity | reflexivity | reflexivity].
Defined.

Lemma startswith_cons (c d : ascii) (s p : string) :
  Str.startswith (String d s) (String c p)
  = if Ascii.eqb c d then Str.startswith s p else false.
Proof. reflexivity. Qed.

Lemma fast_path_reversed (url : string) :
  suffix_fast_path url
  = let r := String.rev url in
    if Str.startswith r "gpj" then Some "jpg"
    else if Str.startswith r "gepj" then Some "jpeg"
    else if Str.startswith r "gnp.fig." then Some ".gif.png"
    else None.
Proof. reflexivity. Qed.

(** The ending [.gif] alone already rules out the three endings of the
    loop, and [.png] rules out [jpg] and [jpeg]. *)
Lemma gif_url_has_no_fast_path (url : string) :
  Str.endswith url ".gif" = true → suffix_fast_path url = None.
Proof.
  rewrite fast_path_reversed. unfold Str.endswith.
  change (String.rev ".gif") with "fig.". cbv zeta.
  generalize (String.rev url) as r. intros r H.
  destruct r as [|c r]; [discriminate H|].
  rewrite !startswith_cons in *.
  destruct (Ascii.eqb_spec "f" c) as [<-|]; [|discriminate H].
  reflexivity.
Qed.

Lemma png_url_has_no_fast_path (url : string) :
  Str.endswith url ".png" = true → Str.endswith url ".gif.png" = false →
  suffix_fast_path url = None.
Proof.
  rewrite fast_path_reversed. unfold Str.endswith.
  change (String.rev ".png") with "gnp.".
  change (String.rev ".gif.png") with "gnp.fig.". cbv zeta.
  generalize (String.rev url) as r. intros r H Hgp.
  rewrite Hgp.
  destruct r as [|c r]; [discriminate H|].
  rewrite !startswith_cons in *.
  destruct (Ascii.eqb_spec "g" c) as [<-|]; [|discriminate H].
  destruct r as [|d r]; [discriminate H|].
  rewrite !startswith_cons in *.
  destruct (Ascii.eqb_spec "n" d) as [<-|]; [|discriminate H].
  reflexivity.
Qed.

(** ** [Chapter] *)

(** C7, as the code has it.  On strings, [Chapter(content, title, url)]
    succeeds exactly when title and content are both non-empty and
    [html.parser] accepts the content; the chapter then stores both
    unchanged.  An empty title or content raises [ValueError]; non-empty
    strings whose content the parser refuses raise
    [ParserRejectedMarkup]. *)
Theorem Chapter_init_nonempty_iff (env : Env) (content title : string)
    (url : option string) :
  ((∃ ch, Chapter.__init__ env (PyStr content) (PyStr title) url = Ok ch)
   ↔ title ≠ "" ∧ content ≠ "" ∧ parser_rejects env content = false) ∧
  (∀ ch, Chapter.__init__ env (PyStr content) (PyStr title) url = Ok ch →
         Chapter.title ch = title ∧ Chapter.content ch = content) ∧
  (title = "" ∨ content = "" →
   ∃ msg, Chapter.__init__ env (PyStr content) (PyStr title) url
          = Raise (ValueError msg)) ∧
  (title ≠ "" → content ≠ "" → parser_rejects env content = true →
   Chapter.__init__ env (PyStr content) (PyStr title) url
   = Raise ParserRejectedMarkup).
Proof.
  unfold Chapter.__init__, Chapter._validate_input_types.
  destruct (String.eqb_spec title "") as [Ht|Ht]; simpl.
  - split; [split|split; [|split]].
    + intros [ch Hch]. discriminate Hch.
    + intros [Hne _]. contradiction.
    + intros ch Hch. discriminate Hch.
    + intros _. eauto.
    + intros Hne. contradiction.
  - destruct (String.eqb_spec content "") as [Hc|Hc]; simpl.
    + split; [split|split; [|split]].
      * intros [ch Hch]. discriminate Hch.
      * intros (_ & Hne & _). contradiction.
      * intros ch Hch. discriminate Hch.
      * intros _. eauto.
      * intros _ Hne. contradiction.
    + destruct (parser_rejects env content) eqn:Hrej.
      * split; [split|split; [|split]].
        -- intros [ch Hch]. discriminate Hch.
        -- intros (_ & _ & H). discriminate H.
        -- intros ch Hch. discriminate Hch.
        -- intros [H|H]; contradiction.
        -- intros _ _ _. reflexivity.
      * split; [split|split; [|split]].
        -- intros _. repeat split; assumption.
        -- intros _. eauto.
        -- intros ch Hch. inversion Hch; subst ch. split; reflexivity.
        -- intros [H|H]; contradiction.
        -- intros _ _ H. discriminate H.
Qed.

(** C7, as stated, fails: title and content are non-empty strings, and the
    constructor raises, because [html.parser] refuses the content. *)
Lemma Chapter_init_rejected_markup :
  "One" ≠ "" ∧ "<![foo bar]>x" ≠ "" ∧
  Chapter.__init__ Sample.env (PyStr "<![foo bar]>x") (PyStr "One") None
  = Raise ParserRejectedMarkup.
Proof. split; [discriminate|]. split; [discriminate|]. reflexivity. Qed.

(** C9. On a chapter built with a URL, [get_url] returns that URL; on a
    chapter built without one it raises [NoUrlError].  It has no third
    outcome. *)
Theorem get_url_after_init (env : Env) (content title : pyval)
    (url : option string) (ch : Chapter.t) :
  Chapter.__init__ env content title url = Ok ch →
  Chapter.get_url ch = match url with
                       | Some u => Ok u
                       | None => Raise NoUrlError
                       end.
Proof.
  unfold Chapter.__init__, Chapter.get_url. intros H.
  destruct (Chapter._validate_input_types content title) as [[c t]|e];
    simpl in H; [|discriminate H].
  destruct (parser_rejects env c); [discriminate H|].
  inversion H; subst ch; simpl. reflexivity.
Qed.

Lemma get_url_after_init_witness :
  Chapter.get_url (Sample.text_chapter (Some Sample.page_url))
  = Ok Sample.page_url ∧
  Chapter.get_url (Sample.text_chapter None) = Raise NoUrlError.
Proof.
  split.
  - apply (get_url_after_init Sample.env (PyStr "<p>text</p>") (PyStr "One")
             (Some Sample.page_url)).
    reflexivity.
  - apply (get_url_after_init Sample.env (PyStr "<p>text</p>") (PyStr "One")
             None).
    reflexivity.
Defined.

(** ** [ChapterFactory] *)

(** C10. When the first [title] element of the source has no child and no
    title is passed, the inferred title is [None], not the default
    ['Ebook Chapter'], and building the chapter raises
    [TypeError('title must be a string')]. *)
Theorem empty_title_element_raises (env : Env) (html_string : string)
    (url : option string) (c x : string) (i : nat)
    (attrs : list (string * string)) :
  clean_function env html_string = Ok c →
  html_to_xhtml env c = Ok x →
  Bs4.find "title" (html_parser env html_string)
  = Some (Bs4.Tag i "title" attrs []) →
  ChapterFactory.infer_title env html_string = PyNone ∧
  ChapterFactory.create_chapter_from_string env html_string url PyNone
  = Raise (TypeError "title must be a string").
Proof.
  intros Hc Hx Ht.
  assert (Hinf : ChapterFactory.infer_title env html_string = PyNone).
  { unfold ChapterFactory.infer_title. now rewrite Ht. }
  split; [exact Hinf|].
  unfold ChapterFactory.create_chapter_from_string.
  rewrite Hc; simpl. rewrite Hx; simpl. rewrite Hinf. reflexivity.
Qed.

Lemma empty_title_element_raises_witness :
  ChapterFactory.infer_title Sample.env Sample.untitled_page = PyNone ∧
  ChapterFactory.create_chapter_from_string Sample.env Sample.untitled_page
    None PyNone
  = Raise (TypeError "title must be a string").
Proof.
  apply (empty_title_element_raises Sample.env Sample.untitled_page None
           Sample.untitled_page Sample.untitled_page 2 []);
    reflexivity.
Defined.


Example write_xhtml_sample :
  ∃ w', Chapter.write Sample.env (Sample.text_chapter None) "book/one.xhtml"
          Sample.world = (Ok tt, w')
        ∧ files w' !! "book/one.xhtml" = Some "<p>text</p>".
Proof. eexists. split; reflexivity. Qed.

Example write_html_sample :
  Chapter.write Sample.env (Sample.text_chapter None) "book/one.html"
    Sample.world
  = (Raise (ValueError "filename must end with .xhtml"), Sample.world).
Proof. reflexivity. Qed.

Example encode_utf8_latin1 :
  Str.encode_utf8 (String (ascii_of_nat 233) "a")
  = String (ascii_of_nat 195) (String (ascii_of_nat 169) "a").
Proof. reflexivity. Qed.

(** ** [save_image] *)

(** Type detection changes no file but its temporary one. *)
Lemma get_image_type_files (env : Env) (url : string) (w : World) (p : string) :
  p ≠ mkstemp env (tmp_drawn w) →
  files (get_image_type env url w).2 !! p = files w !! p.
Proof.
  intros Hp. unfold get_image_type.
  destruct (suffix_fast_path url); [reflexivity|].
  unfold sniff_image_type.
  destruct (can_open_wb env _); [|reflexivity].
  destruct (urlretrieve env url) as [data|e]; simpl.
  - rewrite !lookup_insert_ne by congruence. reflexivity.
  - destruct (is_IOError e); simpl; now rewrite lookup_insert_ne by congruence.
Qed.

(** When [save_image] raises the image-fetch error after the type was
    found, the target file was opened before the fetch. *)
Lemma fetch_to_file_failure (env : Env) (image_url target : string)
    (w w' : World) (e : exn) :
  fetch_to_file env image_url target w = (Raise e, w') →
  (can_open_wb env target = false ∧ w' = w) ∨
  (can_open_wb env target = true ∧ files w' !! target = Some "").
Proof.
  unfold fetch_to_file, open_wb.
  destruct (can_open_wb env target) eqn:Hopen.
  - intros H. right. split; [reflexivity|].
    destruct (requests_get env image_url true) as [resp|e'].
    + destruct (Requests.content resp) as [data|].
      * discriminate H.
      * inversion H; subst. simpl. apply lookup_insert_eq.
    + inversion H; subst. simpl. apply lookup_insert_eq.
  - intros H. left. inversion H; subst. split; reflexivity.
Qed.

(** C3, as the code has it.  When [save_image] raises the image-fetch
    error, either no type was detected, and then no file but the temporary
    file of the detection has changed; or the type was detected, and then
    the target file could not be opened, or it was opened before the fetch
    and is left behind, empty. *)
Theorem save_image_failure_files (env : Env) (image_url image_directory : string)
    (image_name : string) (w w' : World) (u : string) :
  save_image env image_url image_directory (PyStr image_name) w
  = (Raise (ImageErrorException u), w') →
  ((∀ ty, (get_image_type env image_url w).1 ≠ Ok (Some ty)) ∧
   (∀ p, p ≠ mkstemp env (tmp_drawn w) → files w' !! p = files w !! p))
  ∨
  (∃ ty, (get_image_type env image_url w).1 = Ok (Some ty) ∧
     let target := Os.path_join image_directory (image_name +:+ "." +:+ ty) in
     (can_open_wb env target = false ∧ w' = (get_image_type env image_url w).2)
     ∨ (can_open_wb env target = true ∧ files w' !! target = Some "")).
Proof.
  intros H. unfold save_image, bind in H.
  pose proof (get_image_type_files env image_url w) as Hfiles.
  destruct (get_image_type env image_url w) as [[[ty|]|e] w1] eqn:Hty;
    simpl in *.
  - right. exists ty. split; [reflexivity|].
    destruct (os_path_exists env w1 image_url).
    + unfold bind, shutil_copy in H.
      repeat match type of H with
             | context [if ?b then _ else _] => destruct b
             | context [match files w1 !! image_url with _ => _ end] =>
                 destruct (files w1 !! image_url)
             end; discriminate H.
    + unfold bind in H.
      destruct (fetch_to_file env image_url _ w1) as [[[]|e] w2] eqn:Hfetch;
        [discriminate H|].
      inversion H; subst.
      exact (fetch_to_file_failure _ _ _ _ _ _ Hfetch).
  - left. unfold raise in H. inversion H; subst. split; [congruence|].
    exact Hfiles.
  - left. inversion H; subst. split; [congruence|]. exact Hfiles.
Qed.

Lemma save_image_failure_files_witness :
  save_image Sample.env Sample.jpg_url "book/images" (PyStr "pic") Sample.world
  = (Raise (ImageErrorException Sample.jpg_url), Sample.world_after_failed_save)
  ∧
  (((∀ ty, (get_image_type Sample.env Sample.jpg_url Sample.world).1
           ≠ Ok (Some ty)) ∧
    (∀ p, p ≠ mkstemp Sample.env (tmp_drawn Sample.world) →
          files Sample.world_after_failed_save !! p = files Sample.world !! p))
   ∨
   (∃ ty, (get_image_type Sample.env Sample.jpg_url Sample.world).1
          = Ok (Some ty) ∧
      let target := Os.path_join "book/images" ("pic" +:+ "." +:+ ty) in
      (can_open_wb Sample.env target = false ∧
       Sample.world_after_failed_save
       = (get_image_type Sample.env Sample.jpg_url Sample.world).2)
      ∨ (can_open_wb Sample.env target = true ∧
         files Sample.world_after_failed_save !! target = Some ""))).
Proof.
  split; [reflexivity|].
  exact (save_image_failure_files Sample.env Sample.jpg_url "book/images"
           "pic" Sample.world Sample.world_after_failed_save Sample.jpg_url
           eq_refl).
Defined.

(** C3, as stated, fails: the host does not answer, [save_image] raises
    the image-fetch error, and the file it opened is in the directory. *)
Lemma save_image_leaves_empty_file :
  files Sample.world !! "book/images/pic.jpg" = None ∧
  (save_image Sample.env Sample.jpg_url "book/images" (PyStr "pic")
     Sample.world).1 = Raise (ImageErrorException Sample.jpg_url) ∧
  files (save_image Sample.env Sample.jpg_url "book/images" (PyStr "pic")
           Sample.world).2 !! "book/images/pic.jpg" = Some "".
Proof. repeat split; reflexivity. Qed.

(** ** [_replace_image] *)

(** C4, as the code has it.  An [image_tag] that is not a [Tag] makes
    [_replace_image] raise [TypeError] to its caller, with the tree and the
    world as they were.  For a [Tag], when the [images] directory exists
    and saving the image raises the image-fetch error or a [TypeError], the
    tag is removed from the tree and the call returns normally. *)
Theorem replace_image_non_tag_raises (env : Env) (image_url ebook_folder : string)
    (image_name : pyval) (w : World) (tree : Bs4.soup) :
  (∀ ty,
     _replace_image env image_url (NotATag ty) ebook_folder image_name (w, tree)
     = (Raise (TypeError ("image_tag cannot be of type " +:+ ty)), (w, tree))) ∧
  (∀ i e w1,
     os_path_exists env (default_image_name env image_name w).2
       (Os.path_join ebook_folder "images") = true →
     save_image env image_url (Os.path_join ebook_folder "images")
       (default_image_name env image_name w).1
       (default_image_name env image_name w).2 = (Raise e, w1) →
     (∃ u, e = ImageErrorException u) ∨ (∃ msg, e = TypeError msg) →
     _replace_image env image_url (TagRef i) ebook_folder image_name (w, tree)
     = (Ok tt, (w1, Bs4.decompose i tree))).
Proof.
  split.
  - intros ty. reflexivity.
  - intros i e w1 Hdir Hsave He. unfold _replace_image.
    destruct (default_image_name env image_name w) as [name' w0]; simpl in *.
    rewrite Hdir, Hsave.
    destruct He as [[u ->]|[msg ->]]; reflexivity.
Qed.

(** C4, as stated, fails: a string node is no [Tag], and the call raises
    instead of removing anything. *)
Lemma replace_image_string_node_raises :
  _replace_image Sample.env Sample.jpg_url
    (Chapter.node_ref (Bs4.NavigableString "one")) "book" PyNone
    (Sample.world, Sample.image_page_tree)
  = (Raise (TypeError
       "image_tag cannot be of type <class 'bs4.element.NavigableString'>"),
     (Sample.world, Sample.image_page_tree)).
Proof. reflexivity. Qed.

(** ** [process_gist] *)


Lemma gist_rows_app (trows : list Bs4.node) (pairs lines : list (string * string))
    (last_line : pyval) :
  map ChapterGithubGistFactory.gist_row trows = map Ok pairs →
  ChapterGithubGistFactory.gist_rows trows lines last_line
  = Ok (lines ++ pairs,
        match last pairs with
        | Some (number, _) => PyStr number
        | None => last_line
        end).
Proof.
  revert pairs lines last_line.
  induction trows as [|trow trows IH]; intros pairs lines last_line Hmap.
  - destruct pairs; [|discriminate Hmap]. simpl. now rewrite app_nil_r.
  - destruct pairs as [|[number code] pairs]; [discriminate Hmap|].
    simpl in Hmap. inversion Hmap as [[Hrow Hrest]].
    simpl. rewrite Hrow. simpl. rewrite (IH pairs _ _ Hrest).
    rewrite <- app_assoc. simpl.
    destruct pairs as [|pr pairs']; [reflexivity|].
    change (last ((number, code) :: pr :: pairs')) with (last (pr :: pairs')).
    destruct (last (pr :: pairs')) as [[n c]|] eqn:Hlast; [reflexivity|].
    apply last_None in Hlast. discriminate Hlast.
Qed.

(** C1, as the code has it.  When the rows of the fragment give the pairs
    (10, a), (11, b), (12, c), [process_gist] builds the block of the three
    lines [ 10: a], [ 11: b], [ 12: c] between the [pre] tags, in that
    order: every number is right-aligned in three columns, one more than
    the last number has digits. *)
Theorem process_gist_three_rows (env : Env) (gist_link : string)
    (req : Requests.Response) (new_content : string) :
  requests_get env gist_link true = Ok req →
  Requests.status_ok req = true →
  ChapterGithubGistFactory.docwrite_content env
    (docwrite_groups env (Requests.text req)) "" = Ok new_content →
  map ChapterGithubGistFactory.gist_row
    (Bs4.find_all "tr" (html_parser env new_content))
  = [Ok ("10", "a"); Ok ("11", "b"); Ok ("12", "c")] →
  let block :=
    [ChapterGithubGistFactory.pre_open; " 10: a"; " 11: b"; " 12: c"; "</pre>"]
  in
  ChapterGithubGistFactory.gist_lines [("10", "a"); ("11", "b"); ("12", "c")]
    (PyStr "12") = Ok block ∧
  [" 10: a"; " 11: b"; " 12: c"]
  = map (fun '(line, code) =>
           Str.rjust (String.length "12" + 1) line +:+ ": " +:+ code)
      [("10", "a"); ("11", "b"); ("12", "c")] ∧
  ChapterGithubGistFactory.process_gist env gist_link
  = Ok (ChapterGithubGistFactory.append_meta
          (html_parser env (Str.join Os.linesep block))
          (Bs4.find_class "div" ChapterGithubGistFactory.GIST_META
             (html_parser env new_content))).
Proof.
  intros Hget Hok Hdoc Hrows block.
  split; [reflexivity|]. split; [reflexivity|].
  unfold ChapterGithubGistFactory.process_gist.
  rewrite Hget; simpl. rewrite Hok; simpl. rewrite Hdoc; simpl.
  rewrite (gist_rows_app _ [("10", "a"); ("11", "b"); ("12", "c")] [] _ Hrows).
  reflexivity.
Qed.

Lemma process_gist_three_rows_witness :
  let block :=
    [ChapterGithubGistFactory.pre_open; " 10: a"; " 11: b"; " 12: c"; "</pre>"]
  in
  ChapterGithubGistFactory.gist_lines [("10", "a"); ("11", "b"); ("12", "c")]
    (PyStr "12") = Ok block ∧
  [" 10: a"; " 11: b"; " 12: c"]
  = map (fun '(line, code) =>
           Str.rjust (String.length "12" + 1) line +:+ ": " +:+ code)
      [("10", "a"); ("11", "b"); ("12", "c")] ∧
  ChapterGithubGistFactory.process_gist Sample.env Sample.gist_url
  = Ok (ChapterGithubGistFactory.append_meta
          (html_parser Sample.env (Str.join Os.linesep block))
          (Bs4.find_class "div" ChapterGithubGistFactory.GIST_META
             (html_parser Sample.env Sample.gist_fragment))).
Proof.
  exact (process_gist_three_rows Sample.env Sample.gist_url
           {| Requests.status_ok := true; Requests.text := Sample.gist_js;
              Requests.content := Some Sample.gist_js |}
           Sample.gist_fragment eq_refl eq_refl eq_refl eq_refl).
Defined.

(** C1, as stated, fails: for these rows the lines of the block are not
    [10: a], [11: b], [12: c]; the numbers stand in three columns, not in
    the two that the last number has digits. *)
Lemma process_gist_width_is_one_more :
  ChapterGithubGistFactory.gist_rows
    (Bs4.find_all "tr" (html_parser Sample.env Sample.gist_fragment)) []
    (PyInt 0)
  = Ok ([("10", "a"); ("11", "b"); ("12", "c")], PyStr "12") ∧
  ChapterGithubGistFactory.gist_lines [("10", "a"); ("11", "b"); ("12", "c")]
    (PyStr "12")
  ≠ Ok [ChapterGithubGistFactory.pre_open; "10: a"; "11: b"; "12: c"; "</pre>"] ∧
  (∃ rest,
     ChapterGithubGistFactory.process_gist Sample.env Sample.gist_url
     = Ok (Bs4.Tag 0 "pre" [("style", "font-size: 80%;")]
             [Bs4.NavigableString
                (Os.linesep +:+ " 10: a" +:+ Os.linesep +:+ " 11: b" +:+
                 Os.linesep +:+ " 12: c" +:+ Os.linesep)]
           :: rest)).
Proof.
  split; [reflexivity|]. split; [discriminate|].
  eexists. reflexivity.
Qed.

(** ** [ChapterGithubGistFactory.create_chapter_from_string] *)

(** The URL the loop hands on is the [src] of the last script that has
    one, and the URL of the caller only when no script has. *)
Lemma expand_gists_url (env : Env) (scripts : list Bs4.node)
    (url url' : option string) (soup soup' : Bs4.soup) :
  ChapterGithubGistFactory.expand_gists env scripts url soup = Ok (url', soup') →
  url' = foldl (fun u script =>
                  match Bs4.getitem script "src" with
                  | Ok src => Some src
                  | Raise _ => u
                  end) url scripts.
Proof.
  revert url soup. induction scripts as [|script scripts IH]; intros url soup H.
  - inversion H. reflexivity.
  - simpl in *. destruct (Bs4.getitem script "src") as [src|e].
    + destruct (negb _); [exact (IH _ _ H)|].
      destruct (ChapterGithubGistFactory.process_gist env src) as [g|e].
      * exact (IH _ _ H).
      * destruct e; try discriminate H. exact (IH _ _ H).
    + destruct e; try discriminate H. exact (IH _ _ H).
Qed.

Lemma Chapter_init_url (env : Env) (content title : pyval)
    (url : option string) (ch : Chapter.t) :
  Chapter.__init__ env content title url = Ok ch → Chapter.url ch = url.
Proof.
  unfold Chapter.__init__. intros H.
  destruct (Chapter._validate_input_types content title) as [[c t]|e];
    simpl in H; [|discriminate H].
  destruct (parser_rejects env c); [discriminate H|].
  inversion H; subst ch. reflexivity.
Qed.

(** Whatever the page, the chapter gets the [src] of its last script that
    has one; the URL of the caller reaches it only through a page where no
    script has a [src]. *)
Lemma gist_factory_chapter_url (env : Env) (html_string : string)
    (url : option string) (title : pyval) (ch : Chapter.t) :
  ChapterGithubGistFactory.create_chapter_from_string env html_string url title
  = Ok ch →
  Chapter.url ch
  = foldl (fun u script =>
             match Bs4.getitem script "src" with
             | Ok src => Some src
             | Raise _ => u
             end) url (Bs4.find_all "script" (html_parser env html_string)).
Proof.
  unfold ChapterGithubGistFactory.create_chapter_from_string. intros H.
  destruct (ChapterGithubGistFactory.expand_gists env _ url _)
    as [[url' soup']|e] eqn:Hloop; simpl in H; [|discriminate H].
  apply expand_gists_url in Hloop. subst url'.
  unfold ChapterFactory.create_chapter_from_string in H.
  destruct (clean_function env _) as [c|e]; simpl in H; [|discriminate H].
  destruct (html_to_xhtml env c) as [x|e]; simpl in H; [|discriminate H].
  exact (Chapter_init_url _ _ _ _ _ H).
Qed.

(** C2 at a page with a script of another host: the chapter is built,
    and its URL is the [src] of the script, not the URL that was passed. *)
Theorem gist_factory_url_is_script_src :
  ∃ ch,
    ChapterGithubGistFactory.create_chapter_from_string Sample.env
      Sample.script_page (Some Sample.page_url) (PyStr "T") = Ok ch ∧
    Chapter.url ch = Some Sample.script_url ∧
    Chapter.url ch ≠ Some Sample.page_url.
Proof.
  eexists. split; [reflexivity|]. split; [reflexivity|]. discriminate.
Qed.

(** ** Removing tags from a tree *)

Section Decompose.
Import Bs4.

Lemma node_nested_ind (P : node → Prop) :
  (∀ s, P (NavigableString s)) →
  (∀ i nm at_ cs, Forall P cs → P (Tag i nm at_ cs)) →
  ∀ n, P n.
Proof.
  intros Hs Ht. fix IH 1. intros [s|i nm at_ cs]; [apply Hs|].
  apply Ht. induction cs as [|c cs IHcs]; constructor; [apply IH | exact IHcs].
Qed.

Context (i : nat).

#[local] Abbreviation keep := (fun m : node => node_ident m ≠ Some i).

Lemma descendants_app (l1 l2 : soup) :
  descendants (l1 ++ l2) = descendants l1 ++ descendants l2.
Proof. apply flat_map_app. Qed.

Lemma decompose_app (l1 l2 : soup) :
  decompose i (l1 ++ l2) = decompose i l1 ++ decompose i l2.
Proof. apply flat_map_app. Qed.

Lemma leaf_at_app (l1 l2 : soup) :
  leaf_at i (l1 ++ l2) → leaf_at i l1 ∧ leaf_at i l2.
Proof.
  unfold leaf_at. intros H. split; intros m Hm; apply H;
    rewrite descendants_app, elem_of_app; auto.
Qed.

Lemma descendants_decompose_list (l : soup) :
  Forall (fun n => leaf_at i [n] →
            descendants (decompose_node i n)
            = map (decompose_below i) (filter keep (self_and_descendants n))) l →
  leaf_at i l →
  descendants (decompose i l)
  = map (decompose_below i) (filter keep (descendants l)).
Proof.
  induction 1 as [|c l Hc _ IH]; intros Hleaf; [reflexivity|].
  change (c :: l) with ([c] ++ l) in Hleaf.
  apply leaf_at_app in Hleaf as [Hc' Hl'].
  change (decompose i (c :: l)) with (decompose_node i c ++ decompose i l).
  change (descendants (c :: l)) with (self_and_descendants c ++ descendants l).
  rewrite descendants_app, filter_app, map_app, (Hc Hc'), (IH Hl').
  reflexivity.
Qed.

Lemma descendants_decompose_node (n : node) :
  leaf_at i [n] →
  descendants (decompose_node i n)
  = map (decompose_below i) (filter keep (self_and_descendants n)).
Proof.
  induction n as [s|j nm at_ cs IH] using node_nested_ind; intros Hleaf.
  - reflexivity.
  - simpl. destruct (Nat.eqb_spec j i) as [->|Hne].
    + assert (Hcs : cs = []).
      { apply (Hleaf (Tag i nm at_ cs)); [|reflexivity].
        simpl. apply elem_of_cons. left. reflexivity. }
      subst cs. simpl. rewrite filter_cons_False; [reflexivity|].
      simpl. intros H. apply H. reflexivity.
    + rewrite filter_cons_True by (simpl; congruence).
      simpl. rewrite app_nil_r. f_equal.
      apply (descendants_decompose_list cs IH).
      intros m Hm. apply Hleaf. simpl. rewrite app_nil_r.
      apply elem_of_cons. right. exact Hm.
Qed.

Lemma descendants_decompose (l : soup) :
  leaf_at i l →
  descendants (decompose i l)
  = map (decompose_below i) (filter keep (descendants l)).
Proof.
  apply descendants_decompose_list.
  apply Forall_forall. intros n _. apply descendants_decompose_node.
Qed.

End Decompose.

Section DecomposeIdents.
Import Bs4.

Context (i : nat).

Lemma omap_ident_decompose_below (D : list node) :
  omap node_ident
    (map (decompose_below i) (filter (fun m => node_ident m ≠ Some i) D))
  = filter (fun j => j ≠ i) (omap node_ident D).
Proof.
  induction D as [|[s|j nm at_ cs] D IH].
  - reflexivity.
  - rewrite filter_cons_True by discriminate. exact IH.
  - destruct (decide (j = i)) as [->|Hne].
    + rewrite filter_cons_False by (simpl; intros H; apply H; reflexivity).
      csimpl. rewrite filter_cons_False by (intros H; apply H; reflexivity).
      exact IH.
    + rewrite filter_cons_True by (simpl; congruence).
      csimpl. rewrite filter_cons_True by exact Hne.
      f_equal. exact IH.
Qed.

Lemma filter_named_decompose_below (nm : string) (D : list node) :
  filter (fun n => is_tag_named nm n = true)
    (map (decompose_below i) (filter (fun m => node_ident m ≠ Some i) D))
  = map (decompose_below i)
      (filter (fun m => node_ident m ≠ Some i)
         (filter (fun n => is_tag_named nm n = true) D)).
Proof.
  induction D as [|n D IH]; [reflexivity|].
  assert (Hnm : is_tag_named nm (decompose_below i n) = is_tag_named nm n)
    by (destruct n; reflexivity).
  destruct (decide (node_ident n ≠ Some i)) as [Hk|Hk];
    destruct (is_tag_named nm n) eqn:Hn.
  - rewrite (filter_cons_True _ n D) by exact Hk.
    rewrite (filter_cons_True (fun n => is_tag_named nm n = true) n D)
      by exact Hn.
    rewrite (filter_cons_True _ n) by exact Hk.
    simpl map. rewrite filter_cons_True by congruence.
    f_equal. exact IH.
  - rewrite (filter_cons_True _ n D) by exact Hk.
    rewrite (filter_cons_False (fun n => is_tag_named nm n = true) n D)
      by congruence.
    simpl map. rewrite filter_cons_False by congruence. exact IH.
  - rewrite (filter_cons_False _ n D) by exact Hk.
    rewrite (filter_cons_True (fun n => is_tag_named nm n = true) n D)
      by exact Hn.
    rewrite (filter_cons_False _ n) by exact Hk. exact IH.
  - rewrite (filter_cons_False _ n D) by exact Hk.
    rewrite (filter_cons_False (fun n => is_tag_named nm n = true) n D)
      by congruence.
    exact IH.
Qed.

Lemma idents_decompose (l : soup) :
  leaf_at i l → idents (decompose i l) = filter (fun j => j ≠ i) (idents l).
Proof.
  intros Hleaf. unfold idents. rewrite (descendants_decompose i l Hleaf).
  apply omap_ident_decompose_below.
Qed.

Lemma find_all_decompose (nm : string) (l : soup) :
  leaf_at i l →
  find_all nm (decompose i l)
  = map (decompose_below i)
      (filter (fun m => node_ident m ≠ Some i) (find_all nm l)).
Proof.
  intros Hleaf. unfold find_all. rewrite (descendants_decompose i l Hleaf).
  apply filter_named_decompose_below.
Qed.

Lemma idents_named_decompose (nm : string) (l : soup) :
  leaf_at i l →
  idents_named nm (decompose i l)
  = filter (fun j => j ≠ i) (idents_named nm l).
Proof.
  intros Hleaf. unfold idents_named. rewrite (find_all_decompose nm l Hleaf).
  apply omap_ident_decompose_below.
Qed.

Lemma void_img_decompose (l : soup) :
  leaf_at i l →
  forallb void_img (descendants l) = true →
  forallb void_img (descendants (decompose i l)) = true.
Proof.
  intros Hleaf. rewrite (descendants_decompose i l Hleaf).
  generalize (descendants l) as D. clear Hleaf.
  induction D as [|n D IH]; [reflexivity|].
  simpl forallb. intros [Hn HD]%andb_true_iff.
  destruct (decide (node_ident n ≠ Some i)) as [Hk|Hk].
  - rewrite filter_cons_True by exact Hk. simpl. rewrite (IH HD), andb_true_r.
    destruct n as [s|j nm at_ cs]; [reflexivity|]. simpl in *.
    destruct (String.eqb nm "img"); [|reflexivity].
    destruct cs; [reflexivity | discriminate Hn].
  - rewrite filter_cons_False by exact Hk. exact (IH HD).
Qed.

End DecomposeIdents.

Section WellFormed.
Import Bs4.

Lemma length_find_all (nm : string) (l : soup) :
  length (find_all nm l) = length (idents_named nm l).
Proof.
  unfold idents_named, find_all. generalize (descendants l) as D.
  induction D as [|n D IH]; [reflexivity|].
  destruct (is_tag_named nm n) eqn:Hn.
  - rewrite filter_cons_True by exact Hn.
    destruct n as [s|j nm' at_ cs]; [discriminate Hn|].
    csimpl. f_equal. exact IH.
  - rewrite filter_cons_False by congruence. exact IH.
Qed.

Lemma idents_named_sublist (nm : string) (l : soup) :
  idents_named nm l `sublist_of` idents l.
Proof.
  unfold idents_named, idents, find_all. generalize (descendants l) as D.
  induction D as [|n D IH]; [constructor|].
  destruct (is_tag_named nm n) eqn:Hn.
  - rewrite filter_cons_True by exact Hn.
    destruct n as [s|j nm' at_ cs]; [discriminate Hn|].
    csimpl. constructor. exact IH.
  - rewrite filter_cons_False by congruence.
    destruct n as [s|j nm' at_ cs]; csimpl; [exact IH|].
    constructor. exact IH.
Qed.

Lemma NoDup_omap_eq {A B} (f : A → option B) (l : list A) (a b : A) (y : B) :
  NoDup (omap f l) → a ∈ l → b ∈ l → f a = Some y → f b = Some y → a = b.
Proof.
  induction l as [|x l IH]; intros Hnd Ha Hb Hfa Hfb.
  - inversion Ha.
  - csimpl in Hnd.
    apply elem_of_cons in Ha as [->|Ha]; apply elem_of_cons in Hb as [->|Hb].
    + reflexivity.
    + rewrite Hfa in Hnd. apply NoDup_cons in Hnd as [Hnot _].
      exfalso. apply Hnot. apply list_elem_of_omap. eauto.
    + rewrite Hfb in Hnd. apply NoDup_cons in Hnd as [Hnot _].
      exfalso. apply Hnot. apply list_elem_of_omap. eauto.
    + apply IH; try assumption.
      destruct (f x); [apply NoDup_cons in Hnd as [_ Hnd]|]; exact Hnd.
Qed.

(** In a well-formed tree, the identity of an [img] tag is the identity of
    a leaf only. *)
Lemma well_formed_leaf_at (i : nat) (l : soup) :
  well_formed l → i ∈ idents_named "img" l → leaf_at i l.
Proof.
  intros [Hnd Hvoid] Hi m Hm Hid.
  apply list_elem_of_omap in Hi as (n & Hn & Hnid).
  apply list_elem_of_filter in Hn as [Hname Hn].
  assert (m = n) by exact (NoDup_omap_eq _ _ _ _ _ Hnd Hm Hn Hid Hnid).
  subst m.
  assert (Hv : void_img n = true).
  { rewrite forallb_forall in Hvoid. apply Hvoid, list_elem_of_In, Hn. }
  destruct n as [s|j nm at_ cs]; [discriminate Hname|].
  simpl in *. rewrite Hname in Hv. destruct cs; [reflexivity|discriminate Hv].
Qed.

Lemma well_formed_decompose (i : nat) (l : soup) :
  well_formed l → leaf_at i l → well_formed (decompose i l).
Proof.
  intros [Hnd Hvoid] Hleaf. split.
  - rewrite (idents_decompose i l Hleaf). apply NoDup_filter, Hnd.
  - apply void_img_decompose; assumption.
Qed.

Lemma length_filter_ne (i : nat) (l : list nat) :
  NoDup l → i ∈ l → length (filter (fun j => j ≠ i) l) = length l - 1.
Proof.
  induction l as [|x l IH]; intros Hnd Hi; [inversion Hi|].
  apply NoDup_cons in Hnd as [Hx Hnd].
  destruct (decide (x = i)) as [->|Hne].
  - rewrite filter_cons_False by (intros H; apply H; reflexivity).
    simpl. rewrite Nat.sub_0_r. f_equal.
    clear IH Hi Hnd. induction l as [|y l IH]; [reflexivity|].
    rewrite filter_cons_True.
    + f_equal. apply IH. intros H. apply Hx. now right.
    + intros ->. apply Hx. now left.
  - rewrite filter_cons_True by exact Hne.
    apply elem_of_cons in Hi as [->|Hi]; [contradiction|].
    simpl. rewrite (IH Hnd Hi).
    destruct l; [inversion Hi | simpl; lia].
Qed.

(** Removing, one after the other, distinct [img] tags of a well-formed
    tree: the tree stays well-formed, every removal takes one [img] tag
    away, and the removed identities are gone. *)
Lemma decompose_all (ids : list nat) (l : soup) :
  well_formed l → NoDup ids → ids ⊆ idents_named "img" l →
  let l' := foldl (fun t i => decompose i t) l ids in
  well_formed l' ∧
  length (find_all "img" l') = length (find_all "img" l) - length ids ∧
  (∀ j, j ∈ idents l' → j ∈ idents l ∧ j ∉ ids).
Proof.
  revert l. induction ids as [|i ids IH]; intros l Hwf Hnd Hsub; simpl.
  - split; [exact Hwf|]. split; [lia|].
    intros j Hj. split; [exact Hj|]. intros H; inversion H.
  - apply NoDup_cons in Hnd as [Hi Hnd].
    assert (Hin : i ∈ idents_named "img" l) by (apply Hsub; now left).
    pose proof (well_formed_leaf_at i l Hwf Hin) as Hleaf.
    pose proof (well_formed_decompose i l Hwf Hleaf) as Hwf1.
    assert (Hsub1 : ids ⊆ idents_named "img" (decompose i l)).
    { intros j Hj. rewrite (idents_named_decompose i "img" l Hleaf).
      apply list_elem_of_filter. split.
      - intros ->. contradiction.
      - apply Hsub. now right. }
    destruct (IH (decompose i l) Hwf1 Hnd Hsub1) as (Hwf' & Hlen & Hgone).
    split; [exact Hwf'|]. split.
    + rewrite Hlen, !length_find_all, (idents_named_decompose i "img" l Hleaf).
      rewrite length_filter_ne; [lia| |exact Hin].
      destruct Hwf as [Hndl _].
      eapply sublist_NoDup; [exact Hndl | apply idents_named_sublist].
    + intros j Hj. destruct (Hgone j Hj) as [Hj1 Hj2].
      rewrite (idents_decompose i l Hleaf) in Hj1.
      apply list_elem_of_filter in Hj1 as [Hji Hjl].
      split; [exact Hjl|]. intros [->|H]%elem_of_cons; contradiction.
Qed.

End WellFormed.

(** ** [_replace_images_in_chapter] *)

Section UnreachableImages.
Import Bs4.

Context (env : Env) (ebook_folder : string).
Hypothesis images_dir : isdir env (Os.path_join ebook_folder "images") = true.

(** No step of the module creates a file it could not open. *)
#[local] Abbreviation closed_paths_kept w w' :=
  (∀ p, can_open_wb env p = false → files w' !! p = files w !! p).

Lemma not_a_local_path_kept (w w' : World) (u : string) :
  closed_paths_kept w w' →
  not_a_local_path env w u = true → not_a_local_path env w' u = true.
Proof.
  unfold not_a_local_path, os_path_exists. intros Hkept H.
  apply andb_true_iff in H as [Hopen Hex]. apply negb_true_iff in Hopen.
  rewrite Hopen. simpl. rewrite (Hkept u Hopen). exact Hex.
Qed.

(** One image on a host that cannot be reached: the tag is removed, and
    the call returns normally. *)
Lemma replace_image_unreachable (image_url : string) (i : nat) (w : World)
    (tree : soup) :
  fetch_fails env image_url = true →
  not_a_local_path env w image_url = true →
  ∃ w', _replace_image env image_url (TagRef i) ebook_folder PyNone (w, tree)
        = (Ok tt, (w', decompose i tree))
        ∧ closed_paths_kept w w'.
Proof.
  intros Hfetch Hlocal.
  apply andb_true_iff in Hfetch as [Hretr Hget].
  apply andb_true_iff in Hlocal as [_ Hex]. apply negb_true_iff in Hex.
  unfold _replace_image, default_image_name.
  set (w0 := {| files := files w; uuid_drawn := S (uuid_drawn w);
                tmp_drawn := tmp_drawn w |}).
  assert (Hdir : os_path_exists env w0 (Os.path_join ebook_folder "images")
                 = true).
  { unfold os_path_exists. now rewrite images_dir. }
  rewrite Hdir. unfold save_image, bind, get_image_type.
  destruct (suffix_fast_path image_url) as [ty|].
  - unfold ret. change (os_path_exists env w0 image_url)
      with (os_path_exists env w image_url). rewrite Hex.
    unfold bind, fetch_to_file, open_wb.
    destruct (can_open_wb env _) eqn:Hopen.
    + destruct (requests_get env image_url true) as [resp|e];
        [discriminate Hget|]. rewrite Hget.
      eexists. split; [reflexivity|].
      intros p Hp. simpl. apply lookup_insert_ne.
      intros Heq. subst p. unfold w0 in Hopen. simpl in Hopen. congruence.
    + simpl. eexists. split; [reflexivity|]. intros p Hp. reflexivity.
  - unfold sniff_image_type.
    destruct (can_open_wb env (mkstemp env (tmp_drawn w0))) eqn:Hopen.
    + destruct (urlretrieve env image_url) as [data|e];
        [discriminate Hretr|]. rewrite Hretr. unfold raise.
      eexists. split; [reflexivity|].
      intros p Hp. simpl. apply lookup_insert_ne.
      intros Heq. subst p. unfold w0 in Hopen. simpl in Hopen. congruence.
    + unfold raise. eexists. split; [reflexivity|]. intros p Hp. reflexivity.
Qed.

(** The loop over such images: all their tags are removed, in order. *)
Lemma replace_images_loop_unreachable (image_url_list : list (node * string))
    (w : World) (tree : soup) :
  Forall (fun '(n, u) =>
            is_Some (node_ident n) ∧ fetch_fails env u = true ∧
            not_a_local_path env w u = true) image_url_list →
  ∃ w', Chapter.replace_images_loop env ebook_folder image_url_list (w, tree)
        = (Ok tt,
           (w', foldl (fun t i => decompose i t) tree
                  (omap node_ident image_url_list.*1))).
Proof.
  revert w tree.
  induction image_url_list as [|[n u] L IH]; intros w tree Hall.
  - eexists. reflexivity.
  - apply Forall_cons in Hall as [(Hn & Hfetch & Hlocal) Hall].
    destruct n as [s|i nm at_ cs]; [destruct Hn as [? Hn]; discriminate Hn|].
    destruct (replace_image_unreachable u i w tree Hfetch Hlocal)
      as (w1 & Hstep & Hkept).
    destruct (IH w1 (decompose i tree)) as (w' & Hloop).
    { eapply Forall_impl; [exact Hall|]. intros [n' u'] (? & ? & ?).
      repeat split; try assumption.
      eapply not_a_local_path_kept; eassumption. }
    exists w'. unfold Chapter.replace_images_loop in *. simpl for_each.
    unfold bind at 1. simpl Chapter.node_ref. rewrite Hstep. exact Hloop.
Qed.

Lemma omap_filter_sublist {A B} (f : A → option B) (P : A → Prop)
    `{∀ x, Decision (P x)} (l : list A) :
  omap f (filter P l) `sublist_of` omap f l.
Proof.
  induction l as [|x l IH]; [constructor|].
  destruct (decide (P x)).
  - rewrite filter_cons_True by assumption. csimpl.
    destruct (f x); [constructor|]; exact IH.
  - rewrite filter_cons_False by assumption. csimpl.
    destruct (f x); [constructor|]; exact IH.
Qed.

Lemma elem_of_zip_map {A B} (f : A → B) (l : list A) (a : A) (b : B) :
  (a, b) ∈ zip l (map f l) → a ∈ l ∧ b = f a.
Proof.
  induction l as [|x l IH]; simpl; intros H; [inversion H|].
  apply elem_of_cons in H as [H|H].
  - inversion H; subst. split; [now left | reflexivity].
  - destruct (IH H) as [Ha Hb]. split; [now right | exact Hb].
Qed.

(** What is left of the tags of a name after such removals: each is a
    tag of the old tree, with its identity and its attributes, and none
    has a removed identity. *)
Lemma decompose_all_nodes (nm : string) (ids : list nat) (l : soup) :
  well_formed l → NoDup ids → ids ⊆ idents_named "img" l →
  ∀ m, m ∈ find_all nm (foldl (fun t i => decompose i t) l ids) →
  ∃ n, n ∈ find_all nm l ∧ node_ident m = node_ident n ∧
       (∀ k, has_attr m k = has_attr n k) ∧
       (∀ j, node_ident m = Some j → j ∉ ids).
Proof.
  revert l. induction ids as [|i ids IH]; intros l Hwf Hnd Hsub m Hm.
  - exists m. repeat split; try assumption. intros j _ H. inversion H.
  - simpl in Hm. apply NoDup_cons in Hnd as [Hi Hnd].
    assert (Hin : i ∈ idents_named "img" l) by (apply Hsub; now left).
    pose proof (well_formed_leaf_at i l Hwf Hin) as Hleaf.
    pose proof (well_formed_decompose i l Hwf Hleaf) as Hwf1.
    assert (Hsub1 : ids ⊆ idents_named "img" (decompose i l)).
    { intros j Hj. rewrite (idents_named_decompose i "img" l Hleaf).
      apply list_elem_of_filter. split.
      - intros ->. contradiction.
      - apply Hsub. now right. }
    destruct (IH _ Hwf1 Hnd Hsub1 m Hm) as (n1 & Hn1 & Hid & Hattr & Hnot).
    rewrite (find_all_decompose i nm l Hleaf) in Hn1.
    apply list_elem_of_fmap in Hn1 as (n & -> & Hn).
    apply list_elem_of_filter in Hn as [Hkeep Hn].
    exists n. split; [exact Hn|].
    assert (Hid' : node_ident (decompose_below i n) = node_ident n)
      by (destruct n; reflexivity).
    assert (Hattr' : ∀ k, has_attr (decompose_below i n) k = has_attr n k)
      by (intros k; destruct n; reflexivity).
    split; [now rewrite Hid, Hid'|]. split.
    + intros k. now rewrite Hattr, Hattr'.
    + intros j Hj [->|H]%elem_of_cons.
      * apply Hkeep. now rewrite <- Hid', <- Hid.
      * exact (Hnot j Hj H).
Qed.

(** X21.  The [images] directory exists, the content
    tree is as [html.parser] builds it, and every [img] tag with a [src]
    is on a host that cannot be reached: fetching it raises an [IOError],
    and its URL is no local path.  Then [_replace_images_in_chapter]
    returns normally; the content is the serialized tree; the tree has
    lost exactly as many [img] tags as it had [img] tags with a [src],
    one for each failed resolution; no [img] tag with a [src] is left;
    and none of the tags that had one is in the tree any more. *)
Theorem replace_images_unreachable_hosts (w : World) (self : Chapter.t) :
  well_formed (Chapter._content_tree self) →
  image_tags_unreachable env w self = true →
  ∃ w' self',
    Chapter._replace_images_in_chapter env ebook_folder (w, self)
    = (Ok tt, (w', self')) ∧
    Chapter.content self'
    = Str.replace (soup_str env (Chapter._content_tree self')) "<br>" "<br/>" ∧
    length (find_all "img" (Chapter._content_tree self'))
    = length (find_all "img" (Chapter._content_tree self))
      - length (images_with_src (Chapter._content_tree self)) ∧
    images_with_src (Chapter._content_tree self') = [] ∧
    (∀ n j, n ∈ images_with_src (Chapter._content_tree self) →
            node_ident n = Some j →
            j ∉ idents (Chapter._content_tree self')).
Proof.
  intros Hwf Hunr.
  unfold image_tags_unreachable in Hunr.
  set (L := Chapter._get_image_urls env self) in *.
  set (nodes := images_with_src (Chapter._content_tree self)).
  assert (HL1 : L.*1 = nodes).
  { unfold L, Chapter._get_image_urls. apply fst_zip.
    rewrite length_map. reflexivity. }
  assert (Htags : ∀ n, n ∈ nodes → is_Some (node_ident n)).
  { intros n Hn. apply list_elem_of_filter in Hn as [_ Hn].
    apply list_elem_of_filter in Hn as [Hname _].
    destruct n; [discriminate Hname | eexists; reflexivity]. }
  assert (Hall : Forall (fun '(n, u) =>
            is_Some (node_ident n) ∧ fetch_fails env u = true ∧
            not_a_local_path env w u = true) L).
  { apply Forall_forall. intros [n u] Hin.
    apply elem_of_zip_map in Hin as [Hn ->].
    split; [exact (Htags n Hn)|].
    apply list_elem_of_filter in Hn as [Hsrc Hn].
    rewrite forallb_forall in Hunr.
    specialize (Hunr n (proj1 (list_elem_of_In _ _) Hn)).
    destruct n as [s|j nm at_ cs]; [discriminate Hsrc|].
    simpl in *. unfold dict_has in Hsrc.
    destruct (dict_get "src" at_) as [v|]; [|discriminate Hsrc].
    apply andb_true_iff in Hunr. exact Hunr. }
  destruct (replace_images_loop_unreachable L w (Chapter._content_tree self)
              Hall) as (w' & Hloop).
  rewrite HL1 in Hloop.
  set (ids := omap node_ident nodes) in *.
  assert (Hlen : length ids = length nodes).
  { unfold ids. clear -Htags. induction nodes as [|n nodes IH]; [reflexivity|].
    destruct (Htags n) as [j Hj]; [now left|].
    csimpl. rewrite Hj. simpl. f_equal. apply IH.
    intros m Hm. apply Htags. now right. }
  assert (Hsubl : ids `sublist_of` idents_named "img" (Chapter._content_tree self))
    by apply omap_filter_sublist.
  assert (Hnd : NoDup ids).
  { eapply sublist_NoDup; [|exact Hsubl].
    eapply sublist_NoDup; [exact (proj1 Hwf) | apply idents_named_sublist]. }
  assert (Hsub : ids ⊆ idents_named "img" (Chapter._content_tree self))
    by (apply sublist_subseteq, Hsubl).
  destruct (decompose_all ids _ Hwf Hnd Hsub) as (_ & Hcount & Hgone).
  pose proof (decompose_all_nodes "img" ids _ Hwf Hnd Hsub) as Hleft.
  eexists w', _. unfold Chapter._replace_images_in_chapter.
  fold L. rewrite Hloop. split; [reflexivity|]. simpl.
  split; [reflexivity|]. split; [|split].
  - rewrite Hcount, Hlen. reflexivity.
  - unfold images_with_src at 1.
    destruct (filter _ _) as [|m rest] eqn:Hrest; [reflexivity|exfalso].
    assert (Hm : m ∈ filter (fun n => has_attr n "src" = true)
                   (find_all "img" (foldl (fun t i => decompose i t)
                      (Chapter._content_tree self) ids)))
      by (rewrite Hrest; now left).
    apply list_elem_of_filter in Hm as [Hsrc Hm].
    destruct (Hleft m Hm) as (n & Hn & Hid & Hattr & Hnot).
    assert (Hnn : n ∈ nodes).
    { apply list_elem_of_filter. split; [|exact Hn]. now rewrite <- Hattr. }
    destruct (Htags n Hnn) as [j Hj].
    apply (Hnot j); [now rewrite Hid|].
    apply list_elem_of_omap. exists n. split; assumption.
  - intros n j Hn Hj Hjin. destruct (Hgone j Hjin) as [_ Hnot].
    apply Hnot. apply list_elem_of_omap. exists n. split; assumption.
Qed.

End UnreachableImages.

Lemma replace_images_unreachable_hosts_witness :
  ∃ w' self',
    Chapter._replace_images_in_chapter Sample.env "book"
      (Sample.world, Sample.image_chapter) = (Ok tt, (w', self')) ∧
    Chapter.content self'
    = Str.replace (soup_str Sample.env (Chapter._content_tree self'))
        "<br>" "<br/>" ∧
    length (Bs4.find_all "img" (Chapter._content_tree self'))
    = length (Bs4.find_all "img" (Chapter._content_tree Sample.image_chapter))
      - length (images_with_src (Chapter._content_tree Sample.image_chapter)) ∧
    images_with_src (Chapter._content_tree self') = [] ∧
    (∀ n j, n ∈ images_with_src (Chapter._content_tree Sample.image_chapter) →
            Bs4.node_ident n = Some j →
            j ∉ Bs4.idents (Chapter._content_tree self')).
Proof.
  apply (replace_images_unreachable_hosts Sample.env "book" eq_refl
           Sample.world Sample.image_chapter).
  - split; [|reflexivity]. apply (bool_decide_unpack _). vm_compute. exact I.
  - reflexivity.
Defined.

(** C6 at an image whose URL has a space, on a host that does not
    answer, with the [images] directory in place: the download raises
    [InvalidURL], which is no [IOError]; [get_image_type] does not catch
    it, nor does any caller, so the rewrite raises and the [img] tag is
    still in the tree. *)
Theorem replace_images_invalid_url_escapes :
  Chapter.__init__ Online.env (PyStr Online.spaced_page) (PyStr "Spaced") None
  = Ok Online.spaced_chapter ∧
  os_path_exists Online.env Sample.world (Os.path_join "book" "images") = true ∧
  urlretrieve Online.env Online.spaced_url = Raise InvalidURL ∧
  is_IOError InvalidURL = false ∧
  (Chapter._replace_images_in_chapter Online.env "book"
     (Sample.world, Online.spaced_chapter)).1 = Raise InvalidURL ∧
  length (Bs4.find_all "img"
            (Chapter._content_tree
               (Chapter._replace_images_in_chapter Online.env "book"
                  (Sample.world, Online.spaced_chapter)).2.2)) = 1.
Proof. repeat split. Qed.

Example replace_images_sample :
  ∃ w',
    Chapter._replace_images_in_chapter Sample.env "book"
      (Sample.world, Sample.image_chapter)
    = (Ok tt,
       (w', Chapter.set_content
              (Chapter.set_tree Sample.image_chapter
                 [Bs4.Tag 0 "p" [] [Bs4.NavigableString "one"];
                  Bs4.Tag 2 "p" []
                    [Bs4.NavigableString "two";
                     Bs4.Tag 3 "img" [("alt", "none")] []]])
              "<p>one</p><p>two<img alt='none'/></p>")).
Proof. eexists. reflexivity. Qed.

(** * More properties of the module *)

(** ** [get_image_type] *)

Lemma jpeg_url_is_no_jpg_url (r : string) :
  Str.startswith r "gepj" = true → Str.startswith r "gpj" = false.
Proof.
  intros H. destruct r as [|c r]; [discriminate H|].
  rewrite !startswith_cons in *.
  destruct (Ascii.eqb_spec "g" c) as [<-|]; [|reflexivity].
  destruct r as [|d r]; [reflexivity|].
  rewrite !startswith_cons in *.
  destruct (Ascii.eqb_spec "e" d) as [<-|]; [reflexivity|discriminate H].
Qed.

Lemma gif_png_url_is_no_jpg_url (r : string) :
  Str.startswith r "gnp.fig." = true →
  Str.startswith r "gpj" = false ∧ Str.startswith r "gepj" = false.
Proof.
  intros H. destruct r as [|c r]; [discriminate H|].
  rewrite !startswith_cons in *.
  destruct (Ascii.eqb_spec "g" c) as [<-|]; [|split; reflexivity].
  destruct r as [|d r]; [split; reflexivity|].
  rewrite !startswith_cons in *.
  destruct (Ascii.eqb_spec "n" d) as [<-|]; [split; reflexivity|discriminate H].
Qed.

(** X1. A URL that ends in [jpg], in [jpeg] or in [.gif.png] gets that
    ending as its type, without the leading dot in the first two cases and
    with both dots in the third; the world is as before: nothing is fetched
    and no temporary file is made. *)
Theorem get_image_type_by_ending (env : Env) (url : string) (w : World) :
  (Str.endswith url "jpg" = true →
   get_image_type env url w = (Ok (Some "jpg"), w)) ∧
  (Str.endswith url "jpeg" = true →
   get_image_type env url w = (Ok (Some "jpeg"), w)) ∧
  (Str.endswith url ".gif.png" = true →
   get_image_type env url w = (Ok (Some ".gif.png"), w)).
Proof.
  unfold get_image_type. rewrite fast_path_reversed. unfold Str.endswith.
  change (String.rev "jpg") with "gpj". change (String.rev "jpeg") with "gepj".
  change (String.rev ".gif.png") with "gnp.fig.". cbv zeta.
  split; [|split]; intros H.
  - rewrite H. reflexivity.
  - rewrite (jpeg_url_is_no_jpg_url _ H), H. reflexivity.
  - destruct (gif_png_url_is_no_jpg_url _ H) as [-> ->]. rewrite H. reflexivity.
Qed.

(** X2. When no ending matches, the outcome of [get_image_type] is
    decided by the download: a type only when the download succeeded and
    [imghdr] recognised the bytes; [None] when the temporary file could not
    be made, the download raised an [IOError], or the bytes were not
    recognised; and an exception only when the download raised one that is
    no [IOError], which is then passed on. *)
Theorem get_image_type_sniff_outcomes (env : Env) (url : string) (w : World) :
  suffix_fast_path url = None →
  match (get_image_type env url w).1 with
  | Ok (Some ty) =>
      ∃ data, urlretrieve env url = Ok data ∧ imghdr_what env data = Some ty
  | Ok None =>
      can_open_wb env (mkstemp env (tmp_drawn w)) = false ∨
      (∃ e, urlretrieve env url = Raise e ∧ is_IOError e = true) ∨
      (∃ data, urlretrieve env url = Ok data ∧ imghdr_what env data = None)
  | Raise e => urlretrieve env url = Raise e ∧ is_IOError e = false
  end.
Proof.
  intros Hfast. unfold get_image_type, sniff_image_type. rewrite Hfast.
  destruct (can_open_wb env _); simpl; [|left; reflexivity].
  destruct (urlretrieve env url) as [data|e]; simpl.
  - destruct (imghdr_what env data) as [ty|] eqn:Hty; eauto 6.
  - destruct (is_IOError e) eqn:He; simpl; eauto 6.
Qed.

Lemma get_image_type_sniff_outcomes_witness :
  urlretrieve Online.env "cat.bmp"
  = Raise (ValueError "unknown url type: 'cat.bmp'") ∧
  is_IOError (ValueError "unknown url type: 'cat.bmp'") = false.
Proof.
  exact (get_image_type_sniff_outcomes Online.env "cat.bmp" Sample.world
           eq_refl).
Defined.

(** ** [save_image] *)

Lemma set_file_twice (p a b : string) (w : World) :
  set_file p b (set_file p a w) = set_file p b w.
Proof. unfold set_file. simpl. now rewrite insert_insert_eq. Qed.

(** X3. An image that is a regular file of the local disk, with a type
    given by its ending, is copied when the target
    [<directory>/<name>.<type>] is another file than the source, under
    another name and not a second name of the same file: [save_image]
    returns the type and the target holds the bytes of the source.
    Neither [requests] nor [urlretrieve] is asked. *)
Theorem save_image_copies_local_file (env : Env)
    (image_url image_directory image_name ty data : string) (w : World) :
  let target := Os.path_join image_directory (image_name +:+ "." +:+ ty) in
  suffix_fast_path image_url = Some ty →
  files w !! image_url = Some data →
  isdir env image_url = false →
  isdir env target = false →
  image_url ≠ target →
  samefile env image_url target = false →
  can_open_wb env target = true →
  save_image env image_url image_directory (PyStr image_name) w
  = (Ok ty, set_file target data w).
Proof.
  intros target Hty Hfile Hnodir Htarget Hne Hsame Hopen.
  unfold save_image, bind, get_image_type. rewrite Hty. unfold ret.
  unfold os_path_exists. rewrite Hfile, Hnodir. simpl.
  unfold shutil_copy. fold target.
  rewrite Htarget, Hnodir, Hfile, Hopen, Hsame.
  destruct (String.eqb_spec image_url target) as [Heq|_]; [contradiction|].
  reflexivity.
Qed.

(** The copy is refused when the target is a second name of the source:
    [SameFileError] is no image-fetch error, and [save_image] does not
    catch it. *)
Example save_image_same_file :
  save_image Online.env Online.local_jpg "./pics" (PyStr "dog") Online.world
  = (Raise IOError, Online.world).
Proof. reflexivity. Qed.

Lemma save_image_copies_local_file_witness :
  save_image Online.env Online.local_jpg "book/images" (PyStr "dog")
    Online.world
  = (Ok "jpg", set_file "book/images/dog.jpg" Online.dog_bytes Online.world).
Proof.
  apply (save_image_copies_local_file Online.env Online.local_jpg
           "book/images" "dog" "jpg" Online.dog_bytes Online.world);
    [reflexivity | reflexivity | reflexivity | reflexivity | discriminate
    | reflexivity | reflexivity].
Defined.

(** X4. An image that is no local path, with a type given by its ending,
    is fetched: when the target can be opened and [requests.get] returns a
    response with a body, [save_image] returns the type and the target
    holds exactly the body. *)
Theorem save_image_stores_response_body (env : Env)
    (image_url image_directory image_name ty data : string) (w : World)
    (requests_object : Requests.Response) :
  let target := Os.path_join image_directory (image_name +:+ "." +:+ ty) in
  suffix_fast_path image_url = Some ty →
  os_path_exists env w image_url = false →
  can_open_wb env target = true →
  requests_get env image_url true = Ok requests_object →
  Requests.content requests_object = Some data →
  save_image env image_url image_directory (PyStr image_name) w
  = (Ok ty, set_file target data w).
Proof.
  intros target Hty Hex Hopen Hget Hbody.
  unfold save_image, bind, get_image_type. rewrite Hty. unfold ret.
  rewrite Hex. unfold fetch_to_file, open_wb. fold target.
  rewrite Hopen, Hget, Hbody. unfold file_write.
  now rewrite set_file_twice.
Qed.

Lemma save_image_stores_response_body_witness :
  save_image Online.env Online.cat_url "book/images" (PyStr "cat") Sample.world
  = (Ok "jpg", set_file "book/images/cat.jpg" Online.cat_bytes Sample.world).
Proof.
  apply (save_image_stores_response_body Online.env Online.cat_url
           "book/images" "cat" "jpg" Online.cat_bytes Sample.world
           {| Requests.status_ok := true; Requests.text := Online.cat_bytes;
              Requests.content := Some Online.cat_bytes |});
    reflexivity.
Defined.

(** Whenever [save_image] returns, its target exists. *)
Lemma save_image_target_exists (env : Env)
    (image_url image_directory image_name ty : string) (w w' : World) :
  save_image env image_url image_directory (PyStr image_name) w = (Ok ty, w') →
  os_path_exists env w'
    (Os.path_join image_directory (image_name +:+ "." +:+ ty)) = true.
Proof.
  unfold save_image, bind. intros H.
  destruct (get_image_type env image_url w) as [[[ty'|]|e] w1];
    [|discriminate H|discriminate H].
  set (target := Os.path_join image_directory (image_name +:+ "." +:+ ty'))
    in H.
  assert (Hgoal : ∀ w2, (Ok ty' : result string, w2) = (Ok ty, w') →
            os_path_exists env w2 target = true →
            os_path_exists env w'
              (Os.path_join image_directory (image_name +:+ "." +:+ ty)) = true).
  { intros w2 Heq Hex. inversion Heq; subst. exact Hex. }
  destruct (os_path_exists env w1 image_url).
  - unfold bind, shutil_copy in H.
    destruct (isdir env target) eqn:Hdir.
    + destruct (String.eqb image_url _ || samefile env image_url _)%bool;
        [discriminate H|].
      destruct (isdir env image_url); [discriminate H|].
      destruct (files w1 !! image_url); [|discriminate H].
      destruct (can_open_wb env _); [|discriminate H].
      apply (Hgoal _ H). unfold os_path_exists. now rewrite Hdir.
    + destruct (String.eqb image_url _ || samefile env image_url _)%bool;
        [discriminate H|].
      destruct (isdir env image_url); [discriminate H|].
      destruct (files w1 !! image_url); [|discriminate H].
      destruct (can_open_wb env _); [|discriminate H].
      apply (Hgoal _ H). unfold os_path_exists, set_file. simpl.
      rewrite lookup_insert_eq. apply orb_true_r.
  - unfold bind, fetch_to_file, open_wb in H.
    destruct (can_open_wb env target); [|discriminate H].
    destruct (requests_get env image_url true) as [resp|e]; [|discriminate H].
    destruct (Requests.content resp) as [data|]; [|discriminate H].
    apply (Hgoal _ H). unfold os_path_exists, file_write, set_file. simpl.
    rewrite lookup_insert_eq. apply orb_true_r.
Qed.

(** ** [_replace_image] *)

Section SetItem.
Import Bs4.

Context (i : nat) (k v : string).

Lemma descendants_setitem (l : soup) :
  descendants (setitem i k v l) = map (setitem_node i k v) (descendants l).
Proof.
  assert (Hnode : ∀ n, self_and_descendants (setitem_node i k v n)
                       = map (setitem_node i k v) (self_and_descendants n)).
  { induction n as [s|j nm at_ cs IH] using node_nested_ind; [reflexivity|].
    simpl. f_equal.
    induction IH as [|c cs Hc _ IHcs]; [reflexivity|].
    simpl. rewrite map_app, Hc, IHcs. reflexivity. }
  induction l as [|n l IH]; [reflexivity|].
  change (setitem i k v (n :: l)) with (setitem_node i k v n :: setitem i k v l).
  change (descendants (?a :: ?b)) with (self_and_descendants a ++ descendants b).
  rewrite map_app, Hnode, IH. reflexivity.
Qed.

Lemma find_all_setitem (nm : string) (l : soup) :
  find_all nm (setitem i k v l) = map (setitem_node i k v) (find_all nm l).
Proof.
  unfold find_all. rewrite descendants_setitem.
  generalize (descendants l) as D. induction D as [|n D IH]; [reflexivity|].
  assert (Hnm : is_tag_named nm (setitem_node i k v n) = is_tag_named nm n)
    by (destruct n; reflexivity).
  simpl map. destruct (is_tag_named nm n) eqn:Hn.
  - rewrite !filter_cons_True by congruence. simpl. now rewrite IH.
  - rewrite !filter_cons_False by congruence. exact IH.
Qed.

Lemma dict_get_set (d : list (string * string)) :
  dict_get k (dict_set k v d) = Some v.
Proof.
  induction d as [|[k' v'] d IH]; simpl.
  - now rewrite String.eqb_refl.
  - destruct (String.eqb k' k) eqn:Hk; simpl.
    + now rewrite String.eqb_refl.
    + now rewrite Hk.
Qed.

Lemma getitem_setitem (l : soup) (n : node) :
  n ∈ descendants (setitem i k v l) → node_ident n = Some i →
  getitem n k = Ok v.
Proof.
  rewrite descendants_setitem. intros Hn Hid.
  apply list_elem_of_fmap in Hn as (m & -> & _).
  destruct m as [s|j nm at_ cs]; [discriminate Hid|].
  simpl in *. injection Hid as ->. rewrite Nat.eqb_refl, dict_get_set.
  reflexivity.
Qed.

End SetItem.

(** X5. When the [images] directory exists and [save_image] returns the
    extension, [_replace_image] returns normally and sets the [src] of the
    tag to [images/<name>.<extension>].  A file of that name then exists
    in the [images] directory of the book, the tree has as many [img] tags
    as before, and the tag reads back the new [src]. *)
Theorem replace_image_points_to_saved_file (env : Env)
    (image_url ebook_folder image_name image_extension : string) (i : nat)
    (w w1 : World) (tree : Bs4.soup) :
  let src := "images" +:+ "/" +:+ image_name +:+ "." +:+ image_extension in
  os_path_exists env w (Os.path_join ebook_folder "images") = true →
  save_image env image_url (Os.path_join ebook_folder "images")
    (PyStr image_name) w = (Ok image_extension, w1) →
  _replace_image env image_url (TagRef i) ebook_folder (PyStr image_name)
    (w, tree)
  = (Ok tt, (w1, Bs4.setitem i "src" src tree)) ∧
  os_path_exists env w1
    (Os.path_join (Os.path_join ebook_folder "images")
       (image_name +:+ "." +:+ image_extension)) = true ∧
  length (Bs4.find_all "img" (Bs4.setitem i "src" src tree))
  = length (Bs4.find_all "img" tree) ∧
  (∀ n, n ∈ Bs4.descendants (Bs4.setitem i "src" src tree) →
        Bs4.node_ident n = Some i → Bs4.getitem n "src" = Ok src).
Proof.
  intros src Hdir Hsave. split; [|split; [|split]].
  - unfold _replace_image, default_image_name. now rewrite Hdir, Hsave.
  - exact (save_image_target_exists _ _ _ _ _ _ _ Hsave).
  - rewrite find_all_setitem. apply length_map.
  - intros n. apply getitem_setitem.
Qed.

Lemma replace_image_points_to_saved_file_witness :
  let src := "images" +:+ "/" +:+ "cat" +:+ "." +:+ "jpg" in
  let w1 := set_file "book/images/cat.jpg" Online.cat_bytes Sample.world in
  _replace_image Online.env Online.cat_url (TagRef 1) "book" (PyStr "cat")
    (Sample.world, Sample.image_page_tree)
  = (Ok tt, (w1, Bs4.setitem 1 "src" src Sample.image_page_tree)) ∧
  os_path_exists Online.env w1
    (Os.path_join (Os.path_join "book" "images") ("cat" +:+ "." +:+ "jpg"))
  = true ∧
  length (Bs4.find_all "img" (Bs4.setitem 1 "src" src Sample.image_page_tree))
  = length (Bs4.find_all "img" Sample.image_page_tree) ∧
  (∀ n, n ∈ Bs4.descendants (Bs4.setitem 1 "src" src Sample.image_page_tree) →
        Bs4.node_ident n = Some 1 → Bs4.getitem n "src" = Ok src).
Proof.
  exact (replace_image_points_to_saved_file Online.env Online.cat_url "book"
           "cat" "jpg" 1 Sample.world
           (set_file "book/images/cat.jpg" Online.cat_bytes Sample.world)
           Sample.image_page_tree eq_refl eq_refl).
Defined.

(** Without an [images] entry under the book folder, [_replace_image]
    raises [ValueError] for every tag and every name: the tree is as it
    was, and no file has been made or changed. *)
Lemma replace_image_needs_images_directory (env : Env)
    (image_url ebook_folder : string) (i : nat) (image_name : pyval)
    (w : World) (tree : Bs4.soup) :
  os_path_exists env w (Os.path_join ebook_folder "images") = false →
  ∃ w',
    _replace_image env image_url (TagRef i) ebook_folder image_name (w, tree)
    = (Raise (ValueError (ebook_folder +:+
         " doesn't exist or doesn't contain a subdirectory images")),
       (w', tree)) ∧
    files w' = files w.
Proof.
  intros Hdir. unfold _replace_image.
  assert (Hdir' : os_path_exists env (default_image_name env image_name w).2
                    (Os.path_join ebook_folder "images") = false).
  { destruct image_name; exact Hdir. }
  destruct (default_image_name env image_name w) as [name' w0] eqn:Hname.
  simpl in Hdir'. rewrite Hdir'. exists w0. split; [reflexivity|].
  destruct image_name; inversion Hname; reflexivity.
Qed.

Lemma replace_image_needs_images_directory_witness :
  ∃ w',
    _replace_image Sample.env Sample.jpg_url (TagRef 1) "nowhere" PyNone
      (Sample.world, Sample.image_page_tree)
    = (Raise (ValueError ("nowhere" +:+
         " doesn't exist or doesn't contain a subdirectory images")),
       (w', Sample.image_page_tree)) ∧
    files w' = files Sample.world.
Proof.
  exact (replace_image_needs_images_directory Sample.env Sample.jpg_url
           "nowhere" 1 PyNone Sample.world Sample.image_page_tree eq_refl).
Defined.

(** ** [Chapter] *)

(** X6. The order of the checks of [Chapter(content, title, url)]: a
    content that is no string is reported first, whatever the title; then
    a title that is no string; then an empty title, also when the content
    is empty too; an empty content is reported last. *)
Theorem Chapter_init_error_order (env : Env) (content title : pyval)
    (url : option string) :
  ((∀ c, content ≠ PyStr c) →
   Chapter.__init__ env content title url
   = Raise (TypeError "content must be a string")) ∧
  (∀ c, content = PyStr c →
     ((∀ t, title ≠ PyStr t) →
      Chapter.__init__ env content title url
      = Raise (TypeError "title must be a string")) ∧
     (title = PyStr "" →
      Chapter.__init__ env content title url
      = Raise (ValueError "title cannot be empty string")) ∧
     (∀ t, title = PyStr t → t ≠ "" → c = "" →
      Chapter.__init__ env content title url
      = Raise (ValueError "content cannot be empty string"))).
Proof.
  unfold Chapter.__init__, Chapter._validate_input_types. split.
  - intros Hc. destruct content as [|c|z]; try reflexivity.
    exfalso. exact (Hc c eq_refl).
  - intros c ->. split; [|split].
    + intros Ht. destruct title as [|t|z]; try reflexivity.
      exfalso. exact (Ht t eq_refl).
    + intros ->. reflexivity.
    + intros t -> Ht ->. destruct (String.eqb_spec t ""); [contradiction|].
      reflexivity.
Qed.

(** ** [str.replace] on line breaks *)

Lemma replace_go_skip (old new : string) (k : nat) (s : string) :
  Str.replace_go old new k s = Str.replace_go old new 0 (Str.drop k s).
Proof.
  revert k. induction s as [|c s IH]; intros [|k]; try reflexivity.
  simpl. apply IH.
Qed.

Lemma replace_cons (old new : string) (c : ascii) (s : string) :
  Str.replace (String c s) old new
  = if Str.startswith (String c s) old
    then new +:+ Str.replace (Str.drop (String.length old - 1) s) old new
    else String c (Str.replace s old new).
Proof.
  unfold Str.replace. rewrite <- replace_go_skip. reflexivity.
Qed.

Lemma contains_cons (c : ascii) (s pat : string) :
  Str.contains (String c s) pat
  = (Str.startswith (String c s) pat || Str.contains s pat)%bool.
Proof. reflexivity. Qed.

Lemma length_drop_le (k : nat) (s : string) :
  String.length (Str.drop k s) ≤ String.length s.
Proof.
  revert s. induction k as [|k IH]; intros [|c s]; simpl; try lia.
  specialize (IH s). lia.
Qed.

(** A prefix without [<] of the result is a prefix of the argument. *)
Lemma replace_br_prefix (p s : string) :
  Str.contains p "<" = false →
  Str.startswith (Str.replace s "<br>" "<br/>") p = true →
  Str.startswith s p = true.
Proof.
  revert s. induction p as [|a p IH]; intros s Hp H; [now destruct s|].
  rewrite contains_cons, startswith_cons in Hp.
  apply orb_false_iff in Hp as [Ha Hp].
  assert (Ha' : Ascii.eqb "<" a = false).
  { destruct (Ascii.eqb "<" a); [destruct p; discriminate Ha | reflexivity]. }
  destruct s as [|c s]; [discriminate H|].
  rewrite replace_cons in H.
  destruct (Str.startswith (String c s) "<br>").
  - change ("<br/>" +:+ ?x) with (String "<" ("br/>" +:+ x)) in H.
    rewrite startswith_cons, Ascii.eqb_sym, Ha' in H. discriminate H.
  - rewrite startswith_cons in *.
    destruct (Ascii.eqb a c); [|discriminate H].
    exact (IH s Hp H).
Qed.

Lemma startswith_br_inv (s : string) :
  Str.startswith s "<br>" = true → ∃ t, s = "<br>" +:+ t.
Proof.
  intros H.
  destruct s as [|c1 s]; [discriminate H|]. rewrite startswith_cons in H.
  destruct (Ascii.eqb_spec "<" c1) as [<-|]; [|discriminate H].
  destruct s as [|c2 s]; [discriminate H|]. rewrite startswith_cons in H.
  destruct (Ascii.eqb_spec "b" c2) as [<-|]; [|discriminate H].
  destruct s as [|c3 s]; [discriminate H|]. rewrite startswith_cons in H.
  destruct (Ascii.eqb_spec "r" c3) as [<-|]; [|discriminate H].
  destruct s as [|c4 s]; [discriminate H|]. rewrite startswith_cons in H.
  destruct (Ascii.eqb_spec ">" c4) as [<-|]; [|discriminate H].
  exists s. reflexivity.
Qed.

(** After [replace('<br>', '<br/>')] no [<br>] is left. *)
Lemma replace_br_leaves_none (s : string) :
  Str.contains (Str.replace s "<br>" "<br/>") "<br>" = false.
Proof.
  remember (String.length s) as n eqn:Hn.
  assert (Hle : String.length s ≤ n) by lia. clear Hn.
  revert s Hle. induction n as [|n IH]; intros s Hle.
  - destruct s; [reflexivity | simpl in Hle; lia].
  - destruct s as [|c s]; [reflexivity|].
    rewrite replace_cons.
    destruct (Str.startswith (String c s) "<br>") eqn:Hm.
    + apply startswith_br_inv in Hm as [t Ht].
      assert (Hlen : String.length (String c s) = 4 + String.length t).
      { rewrite Ht. apply string_length_app. }
      injection Ht as -> ->.
      change (Str.drop (String.length "<br>" - 1) ("br>" +:+ t)) with t.
      assert (Ht : Str.contains (Str.replace t "<br>" "<br/>") "<br>" = false).
      { apply IH. lia. }
      change ("<br/>" +:+ ?x)
        with (String "<" (String "b" (String "r" (String "/" (String ">" x))))).
      rewrite !contains_cons, !startswith_cons, Ht. reflexivity.
    + rewrite contains_cons, (IH s) by (simpl in Hle; lia).
      rewrite orb_false_r.
      destruct (Str.startswith (String c (Str.replace s "<br>" "<br/>")) "<br>")
        eqn:Hout; [|reflexivity].
      rewrite startswith_cons in Hout, Hm.
      destruct (Ascii.eqb "<" c); [|discriminate Hout].
      rewrite (replace_br_prefix "br>" s eq_refl Hout) in Hm. discriminate Hm.
Qed.

(** ** [_replace_images_in_chapter] in general *)

Section RewriteInGeneral.
Import Bs4.

(** Removing a tag never adds a tag of any name. *)
Lemma length_find_all_decompose (nm : string) (i : nat) (l : soup) :
  length (find_all nm (decompose i l)) ≤ length (find_all nm l).
Proof.
  unfold find_all.
  assert (Hlist : ∀ cs,
    Forall (fun n =>
      length (filter (fun m => is_tag_named nm m = true)
                (descendants (decompose_node i n)))
      ≤ length (filter (fun m => is_tag_named nm m = true)
                  (self_and_descendants n))) cs →
    length (filter (fun m => is_tag_named nm m = true)
              (descendants (decompose i cs)))
    ≤ length (filter (fun m => is_tag_named nm m = true) (descendants cs))).
  { induction 1 as [|c cs Hc _ IH]; [reflexivity|].
    change (decompose i (c :: cs)) with (decompose_node i c ++ decompose i cs).
    change (descendants (c :: cs))
      with (self_and_descendants c ++ descendants cs).
    rewrite descendants_app, !filter_app, !length_app. lia. }
  apply Hlist. apply Forall_forall. intros n _.
  induction n as [s|j nm' at_ cs IH] using node_nested_ind; [reflexivity|].
  simpl decompose_node. destruct (Nat.eqb j i); [simpl; lia|].
  specialize (Hlist cs IH).
  change (descendants [Tag j nm' at_ (flat_map (decompose_node i) cs)])
    with (Tag j nm' at_ (decompose i cs) :: descendants (decompose i cs) ++ []).
  rewrite app_nil_r.
  change (self_and_descendants (Tag j nm' at_ cs))
    with (Tag j nm' at_ cs :: descendants cs).
  destruct (String.eqb nm' nm) eqn:Hnm.
  - rewrite !filter_cons_True by exact Hnm. simpl. lia.
  - rewrite !filter_cons_False by (simpl; congruence). exact Hlist.
Qed.

Context (env : Env) (ebook_folder : string).

(** What one call of [_replace_image] can do to the tree. *)
Lemma replace_image_tree_cases (image_url : string) (image_tag : tag_arg)
    (image_name : pyval) (w w' : World) (tree tree' : soup) (r : result unit) :
  _replace_image env image_url image_tag ebook_folder image_name (w, tree)
  = (r, (w', tree')) →
  tree' = tree ∨
  ∃ i, image_tag = TagRef i ∧
       (tree' = decompose i tree ∨ ∃ v, tree' = setitem i "src" v tree).
Proof.
  unfold _replace_image. destruct image_tag as [i|ty].
  - destruct (default_image_name env image_name w) as [name' w0].
    destruct (os_path_exists env w0 _).
    + destruct (save_image env image_url _ name' w0) as [[ext|e] w1].
      * destruct name'; intros H; inversion H; subst; eauto 6.
      * destruct e; intros H; inversion H; subst; eauto 6.
    + intros H. inversion H. now left.
  - intros H. inversion H. now left.
Qed.

Lemma replace_image_img_count (image_url : string) (image_tag : tag_arg)
    (image_name : pyval) (w w' : World) (tree tree' : soup) (r : result unit) :
  _replace_image env image_url image_tag ebook_folder image_name (w, tree)
  = (r, (w', tree')) →
  length (find_all "img" tree') ≤ length (find_all "img" tree).
Proof.
  intros H. apply replace_image_tree_cases in H
    as [->|(i & _ & [->|[v ->]])].
  - reflexivity.
  - apply length_find_all_decompose.
  - rewrite find_all_setitem, length_map. reflexivity.
Qed.

Lemma replace_images_loop_img_count (image_url_list : list (node * string))
    (w w' : World) (tree tree' : soup) (r : result unit) :
  Chapter.replace_images_loop env ebook_folder image_url_list (w, tree)
  = (r, (w', tree')) →
  length (find_all "img" tree') ≤ length (find_all "img" tree).
Proof.
  unfold Chapter.replace_images_loop. revert w tree.
  induction image_url_list as [|[n u] L IH]; intros w tree H.
  - inversion H. reflexivity.
  - simpl in H. unfold bind at 1 in H.
    destruct (_replace_image env u (Chapter.node_ref n) ebook_folder PyNone
                (w, tree)) as [[[]|e] [w1 t1]] eqn:Hstep.
    + apply replace_image_img_count in Hstep. apply IH in H. lia.
    + inversion H; subst. exact (replace_image_img_count _ _ _ _ _ _ _ _ Hstep).
Qed.

(** What [_replace_images_in_chapter] stores when it returns. *)
Lemma replace_images_returned_content (w w' : World) (self self' : Chapter.t) :
  Chapter._replace_images_in_chapter env ebook_folder (w, self)
  = (Ok tt, (w', self')) →
  Chapter.content self'
  = Str.replace (soup_str env (Chapter._content_tree self')) "<br>" "<br/>".
Proof.
  unfold Chapter._replace_images_in_chapter. intros H.
  destruct (Chapter.replace_images_loop env ebook_folder _ _)
    as [[[]|e] [w1 t1]]; inversion H; subst. reflexivity.
Qed.

(** X7. Whatever the images, the network and the disk do, and whether it
    returns or raises, [_replace_images_in_chapter] leaves title, escaped
    title and URL of the chapter alone and never adds an [img] tag.  When
    it raises, the content is the old one; when it returns, the content is
    the serialized tree with [<br>] replaced. *)
Theorem replace_images_frame (w w' : World) (self self' : Chapter.t)
    (r : result unit) :
  Chapter._replace_images_in_chapter env ebook_folder (w, self)
  = (r, (w', self')) →
  Chapter.title self' = Chapter.title self ∧
  Chapter.html_title self' = Chapter.html_title self ∧
  Chapter.url self' = Chapter.url self ∧
  length (find_all "img" (Chapter._content_tree self'))
  ≤ length (find_all "img" (Chapter._content_tree self)) ∧
  match r with
  | Raise _ => Chapter.content self' = Chapter.content self
  | Ok _ =>
      Chapter.content self'
      = Str.replace (soup_str env (Chapter._content_tree self')) "<br>" "<br/>"
  end.
Proof.
  unfold Chapter._replace_images_in_chapter. intros H.
  destruct (Chapter.replace_images_loop env ebook_folder _ _)
    as [[[]|e] [w1 t1]] eqn:Hloop;
    apply replace_images_loop_img_count in Hloop;
    inversion H; subst; simpl; repeat split; try reflexivity; exact Hloop.
Qed.

(** X8. After [_replace_images_in_chapter] has returned, the content of
    the chapter contains no [<br>]. *)
Theorem replace_images_leaves_no_br (w w' : World) (self self' : Chapter.t) :
  Chapter._replace_images_in_chapter env ebook_folder (w, self)
  = (Ok tt, (w', self')) →
  Str.contains (Chapter.content self') "<br>" = false.
Proof.
  intros H. rewrite (replace_images_returned_content _ _ _ _ H).
  apply replace_br_leaves_none.
Qed.

(** X9. A chapter without an [img] tag that has a [src] is rewritten
    without any access to disk or network, also when the book folder has
    no [images] directory: the world and the tree stay as they are, and
    the content becomes the serialized tree with [<br>] replaced. *)
Theorem replace_images_without_images (w : World) (self : Chapter.t) :
  Chapter._get_image_urls env self = [] →
  Chapter._replace_images_in_chapter env ebook_folder (w, self)
  = (Ok tt,
     (w, Chapter.set_content self
           (Str.replace (soup_str env (Chapter._content_tree self))
              "<br>" "<br/>"))).
Proof.
  intros Hnone. unfold Chapter._replace_images_in_chapter. rewrite Hnone.
  destruct self. reflexivity.
Qed.

(** X10. With no [images] entry under the book folder, a chapter that has
    an [img] tag with a [src] is not rewritten at all:
    [_replace_images_in_chapter] raises [ValueError] at the first image,
    and chapter and files are as before. *)
Theorem replace_images_needs_images_directory (w : World) (self : Chapter.t) :
  os_path_exists env w (Os.path_join ebook_folder "images") = false →
  Chapter._get_image_urls env self ≠ [] →
  ∃ w',
    Chapter._replace_images_in_chapter env ebook_folder (w, self)
    = (Raise (ValueError (ebook_folder +:+
         " doesn't exist or doesn't contain a subdirectory images")),
       (w', self)) ∧
    files w' = files w.
Proof.
  intros Hdir Hsome. unfold Chapter._replace_images_in_chapter.
  destruct (Chapter._get_image_urls env self) as [|[n u] L] eqn:HL;
    [contradiction|].
  assert (Htag : ∃ i, Chapter.node_ref n = TagRef i).
  { assert (Hn : n ∈ (Chapter._get_image_urls env self).*1)
      by (rewrite HL; now left).
    unfold Chapter._get_image_urls in Hn.
    rewrite fst_zip in Hn by (rewrite length_map; reflexivity).
    apply list_elem_of_filter in Hn as [_ Hn].
    apply list_elem_of_filter in Hn as [Hname _].
    destruct n; [discriminate Hname | eexists; reflexivity]. }
  destruct Htag as [i Hi].
  destruct (replace_image_needs_images_directory env u ebook_folder i PyNone
              w (Chapter._content_tree self) Hdir) as (w' & Hstep & Hfiles).
  exists w'. split; [|exact Hfiles].
  unfold Chapter.replace_images_loop. simpl for_each. unfold bind at 1.
  rewrite Hi, Hstep. destruct self. reflexivity.
Qed.

End RewriteInGeneral.

Lemma replace_images_frame_witness :
  ∃ w' self',
    Chapter._replace_images_in_chapter Sample.env "book"
      (Sample.world, Sample.image_chapter) = (Ok tt, (w', self')) ∧
    Chapter.title self' = Chapter.title Sample.image_chapter ∧
    Chapter.html_title self' = Chapter.html_title Sample.image_chapter ∧
    Chapter.url self' = Chapter.url Sample.image_chapter ∧
    length (Bs4.find_all "img" (Chapter._content_tree self'))
    ≤ length (Bs4.find_all "img" (Chapter._content_tree Sample.image_chapter)) ∧
    Chapter.content self'
    = Str.replace (soup_str Sample.env (Chapter._content_tree self'))
        "<br>" "<br/>".
Proof.
  eexists _, _. split; [reflexivity|].
  exact (replace_images_frame Sample.env "book" Sample.world _
           Sample.image_chapter _ (Ok tt) eq_refl).
Defined.

Lemma replace_images_leaves_no_br_witness :
  ∃ w' self',
    Chapter._replace_images_in_chapter Sample.env "book"
      (Sample.world, Sample.image_chapter) = (Ok tt, (w', self')) ∧
    Str.contains (Chapter.content self') "<br>" = false.
Proof.
  eexists _, _. split; [reflexivity|].
  exact (replace_images_leaves_no_br Sample.env "book" Sample.world _
           Sample.image_chapter _ eq_refl).
Defined.

Lemma replace_images_without_images_witness :
  Chapter._replace_images_in_chapter Sample.env "nowhere"
    (Sample.world, Sample.text_chapter None)
  = (Ok tt,
     (Sample.world,
      Chapter.set_content (Sample.text_chapter None)
        (Str.replace
           (soup_str Sample.env
              (Chapter._content_tree (Sample.text_chapter None)))
           "<br>" "<br/>"))).
Proof.
  exact (replace_images_without_images Sample.env "nowhere" Sample.world
           (Sample.text_chapter None) eq_refl).
Defined.

Lemma replace_images_needs_images_directory_witness :
  ∃ w',
    Chapter._replace_images_in_chapter Sample.env "nowhere"
      (Sample.world, Sample.image_chapter)
    = (Raise (ValueError ("nowhere" +:+
         " doesn't exist or doesn't contain a subdirectory images")),
       (w', Sample.image_chapter)) ∧
    files w' = files Sample.world.
Proof.
  apply (replace_images_needs_images_directory Sample.env "nowhere"
           Sample.world Sample.image_chapter eq_refl).
  discriminate.
Defined.

(** ** [write] and [create_chapter_from_file] *)

Lemma utf8_decode_char (c : ascii) (data : string) :
  Utf8.decode (Str.utf8_char c +:+ data)
  = rbind (Utf8.decode data) (fun s => Ok (String c s)).
Proof. destruct c as [[] [] [] [] [] [] [] []]; reflexivity. Qed.

(** The decoder reads back what [Str.encode_utf8] writes. *)
Lemma utf8_decode_encode (s : string) : Utf8.decode (Str.encode_utf8 s) = Ok s.
Proof.
  induction s as [|c s IH]; [reflexivity|].
  change (Str.encode_utf8 (String c s))
    with (Str.utf8_char c +:+ Str.encode_utf8 s).
  rewrite utf8_decode_char, IH. reflexivity.
Qed.

(** X11. A chapter that [write] has stored can be read back: with a
    decoder that inverts the encoding of the content,
    [create_chapter_from_file] on the written file hands exactly the
    content of the chapter to [create_chapter_from_string]. *)
Theorem write_then_create_chapter_from_file (env : Env)
    (self_create_chapter_from_string :
       string -> option string -> pyval -> result Chapter.t)
    (utf8_decode : string -> result string)
    (self : Chapter.t) (file_name : string) (w w' : World)
    (url : option string) (title : pyval) :
  Chapter.write env self file_name w = (Ok tt, w') →
  isdir env file_name = false →
  utf8_decode (Str.encode_utf8 (Chapter.content self))
  = Ok (Chapter.content self) →
  ChapterFactory.create_chapter_from_file env self_create_chapter_from_string
    utf8_decode w' file_name url title
  = self_create_chapter_from_string (Chapter.content self) url title.
Proof.
  unfold Chapter.write. intros Hwrite Hnodir Hdecode.
  destruct (String.eqb _ ".xhtml"); [|discriminate Hwrite].
  unfold bind, open_wb, file_write in Hwrite.
  destruct (can_open_wb env file_name); [|discriminate Hwrite].
  inversion Hwrite; subst w'. clear Hwrite.
  unfold ChapterFactory.create_chapter_from_file. rewrite Hnodir. simpl.
  rewrite lookup_insert_eq, Hdecode. reflexivity.
Qed.

Lemma write_then_create_chapter_from_file_witness :
  ChapterFactory.create_chapter_from_file Sample.env
    (ChapterFactory.create_chapter_from_string Sample.env) Utf8.decode
    (set_file "book/one.xhtml" "<p>text</p>"
       (set_file "book/one.xhtml" "" Sample.world))
    "book/one.xhtml" None (PyStr "One")
  = ChapterFactory.create_chapter_from_string Sample.env "<p>text</p>" None
      (PyStr "One").
Proof.
  exact (write_then_create_chapter_from_file Sample.env
           (ChapterFactory.create_chapter_from_string Sample.env) Utf8.decode
           (Sample.text_chapter None) "book/one.xhtml" Sample.world _
           None (PyStr "One") eq_refl eq_refl
           (utf8_decode_encode "<p>text</p>")).
Defined.

(** ** [ChapterFactory] *)

(** X12. [ChapterFactory.create_chapter_from_url] builds the chapter from
    the body of whatever response it gets; the status of the response is
    not looked at.  With a title given and a body that the sanitizer and
    the converter turn into a non-empty string that [html.parser]
    accepts, the chapter has that string as content, the title given, and
    the URL that was fetched. *)
Theorem create_chapter_from_url_builds_from_body (env : Env)
    (requests_get_page : string -> ChapterFactory.get_outcome)
    (url title c x : string) (request_object : Requests.Response) :
  requests_get_page url = ChapterFactory.Returned request_object →
  clean_function env (Requests.text request_object) = Ok c →
  html_to_xhtml env c = Ok x →
  x ≠ "" → title ≠ "" →
  parser_rejects env x = false →
  ChapterFactory.create_chapter_from_url
    (ChapterFactory.create_chapter_from_string env) requests_get_page url
    (PyStr title)
  = Ok {| Chapter.title := title;
          Chapter.content := x;
          Chapter._content_tree := html_parser env x;
          Chapter.url := Some url;
          Chapter.html_title := escape env title |}.
Proof.
  intros Hget Hc Hx Hxne Htne Hacc.
  unfold ChapterFactory.create_chapter_from_url. rewrite Hget.
  unfold ChapterFactory.create_chapter_from_string. rewrite Hc; simpl.
  rewrite Hx; simpl.
  unfold Chapter.__init__, Chapter._validate_input_types.
  destruct (String.eqb_spec title ""); [contradiction|].
  destruct (String.eqb_spec x ""); [contradiction|].
  simpl. rewrite Hacc. reflexivity.
Qed.

Lemma create_chapter_from_url_builds_from_body_witness :
  ChapterFactory.create_chapter_from_url
    (ChapterFactory.create_chapter_from_string Sample.env) Online.page_get
    Sample.page_url (PyStr "One")
  = Ok {| Chapter.title := "One";
          Chapter.content := "<p>text</p>";
          Chapter._content_tree := html_parser Sample.env "<p>text</p>";
          Chapter.url := Some Sample.page_url;
          Chapter.html_title := escape Sample.env "One" |}.
Proof.
  apply (create_chapter_from_url_builds_from_body Sample.env Online.page_get
           Sample.page_url "One" "<p>text</p>" "<p>text</p>"
           {| Requests.status_ok := false; Requests.text := "<p>text</p>";
              Requests.content := Some "<p>text</p>" |});
    [reflexivity | reflexivity | reflexivity | discriminate | discriminate
    | reflexivity].
Defined.

(** X13. A URL without scheme and a host that cannot be connected to give
    the same [ValueError], whose message starts with the URL; the
    sanitizer, the parser and the chapter constructor are not reached,
    whatever class [self] has. *)
Theorem create_chapter_from_url_invalid_or_offline
    (self_create_chapter_from_string :
       string -> option string -> pyval -> result Chapter.t)
    (requests_get_page : string -> ChapterFactory.get_outcome)
    (url : string) (title : pyval) :
  requests_get_page url = ChapterFactory.MissingSchema ∨
  requests_get_page url = ChapterFactory.ConnectionError →
  ChapterFactory.create_chapter_from_url self_create_chapter_from_string
    requests_get_page url title
  = Raise (ValueError (url +:+ " is an invalid url or no network connection")).
Proof.
  unfold ChapterFactory.create_chapter_from_url. intros [-> | ->]; reflexivity.
Qed.

Lemma create_chapter_from_url_invalid_or_offline_witness :
  create_chapter_from_url Sample.env Online.page_get "example.com/page" PyNone
  = Raise (ValueError
             ("example.com/page" +:+ " is an invalid url or no network connection"))
  ∧
  create_chapter_from_url Sample.env Online.page_get "http://offline.invalid/"
    PyNone
  = Raise (ValueError
             ("http://offline.invalid/" +:+
              " is an invalid url or no network connection")).
Proof.
  split.
  - exact (create_chapter_from_url_invalid_or_offline
             (ChapterGithubGistFactory.create_chapter_from_string Sample.env)
             Online.page_get "example.com/page" PyNone (or_introl eq_refl)).
  - exact (create_chapter_from_url_invalid_or_offline
             (ChapterGithubGistFactory.create_chapter_from_string Sample.env)
             Online.page_get "http://offline.invalid/" PyNone
             (or_intror eq_refl)).
Defined.




(** ** [ChapterGithubGistFactory] *)

Section GistFactory.
Import Bs4.

Context (env : Env).

Lemma expand_gists_skips (pre scripts : list node) (url : option string)
    (soup : soup) :
  forallb (not_a_gist env) pre = true →
  ChapterGithubGistFactory.expand_gists env (pre ++ scripts) url soup
  = ChapterGithubGistFactory.expand_gists env scripts
      (url_after_scripts url pre) soup.
Proof.
  revert url. induction pre as [|script pre IH]; intros url Hpre;
    [reflexivity|].
  simpl in Hpre. apply andb_true_iff in Hpre as [Hscript Hpre].
  unfold not_a_gist in Hscript. simpl.
  destruct (getitem script "src") as [src|e].
  - rewrite Hscript. exact (IH _ Hpre).
  - destruct e; try discriminate Hscript. exact (IH _ Hpre).
Qed.


(** X16. A gist that answers with an error status stops the chapter: when
    the first script on the gist host gets a response whose status is no
    success, [create_chapter_from_string] raises [HTTPError], whatever
    the body of the response and the rest of the page are. *)
Theorem gist_factory_stops_on_error_status (html_string : string)
    (url : option string) (title : pyval) (pre rest : list node)
    (script : node) (src : string) (req : Requests.Response) :
  find_all "script" (html_parser env html_string) = pre ++ script :: rest →
  forallb (not_a_gist env) pre = true →
  getitem script "src" = Ok src →
  urlparse_netloc env src = ChapterGithubGistFactory.GIST_NETLOC →
  requests_get env src true = Ok req →
  Requests.status_ok req = false →
  ChapterGithubGistFactory.create_chapter_from_string env html_string url title
  = Raise HTTPError.
Proof.
  intros Hscripts Hpre Hsrc Hhost Hget Hstatus.
  unfold ChapterGithubGistFactory.create_chapter_from_string.
  rewrite Hscripts, (expand_gists_skips _ _ _ _ Hpre). simpl.
  rewrite Hsrc, Hhost. simpl.
  unfold ChapterGithubGistFactory.process_gist. rewrite Hget. simpl.
  rewrite Hstatus. reflexivity.
Qed.


(** ** [process_gist] *)




(** X19. A gist without rows.  When the fragment has no [tr] element,
    also when the script has no [document.write] call at all,
    [process_gist] does not fail on the width of a last line that does not
    exist: it returns the parse of the block of the two [pre] lines. *)
Theorem process_gist_without_rows (gist_link : string)
    (req : Requests.Response) (new_content : string) :
  requests_get env gist_link true = Ok req →
  Requests.status_ok req = true →
  ChapterGithubGistFactory.docwrite_content env
    (docwrite_groups env (Requests.text req)) "" = Ok new_content →
  find_all "tr" (html_parser env new_content) = [] →
  ChapterGithubGistFactory.process_gist env gist_link
  = Ok (ChapterGithubGistFactory.append_meta
          (html_parser env
             (Str.join Os.linesep
                [ChapterGithubGistFactory.pre_open; "</pre>"]))
          (find_class "div" ChapterGithubGistFactory.GIST_META
             (html_parser env new_content))).
Proof.
  intros Hget Hok Hdoc Hrows.
  unfold ChapterGithubGistFactory.process_gist.
  rewrite Hget; simpl. rewrite Hok; simpl. rewrite Hdoc; simpl.
  rewrite Hrows. reflexivity.
Qed.

Lemma string_app_assoc (a b c : string) : (a +:+ b) +:+ c = a +:+ (b +:+ c).
Proof.
  induction a as [|x a IH]; [reflexivity|].
  rewrite !string_app_cons, IH. reflexivity.
Qed.

Lemma string_app_empty (a : string) : a +:+ "" = a.
Proof.
  induction a as [|x a IH]; [reflexivity|].
  rewrite string_app_cons, IH. reflexivity.
Qed.

(** X20. The fragment of a gist is the concatenation, in the order of
    the calls, of the decoded arguments of its [document.write] calls,
    each with its escaped slashes unescaped first; the first argument
    that cannot be decoded stops [process_gist] with the error of the
    decoder. *)
Theorem docwrite_content_concatenates (groups : list string)
    (new_content : string) :
  (∀ decoded,
     Forall2 (fun g d => unicode_escape env (Str.replace g "\/" "/") = Ok d)
       groups decoded →
     ChapterGithubGistFactory.docwrite_content env groups new_content
     = Ok (new_content +:+ foldr String.append "" decoded)) ∧
  (∀ before g after decoded e,
     groups = before ++ g :: after →
     Forall2 (fun g d => unicode_escape env (Str.replace g "\/" "/") = Ok d)
       before decoded →
     unicode_escape env (Str.replace g "\/" "/") = Raise e →
     ChapterGithubGistFactory.docwrite_content env groups new_content
     = Raise e).
Proof.
  split.
  - intros decoded H. revert new_content.
    induction H as [|g d groups decoded Hd _ IH]; intros new_content; simpl.
    + now rewrite string_app_empty.
    + rewrite Hd. simpl. rewrite IH. now rewrite string_app_assoc.
  - intros before g after decoded e -> H He. revert new_content.
    induction H as [|g' d before decoded Hd _ IH]; intros new_content; simpl.
    + rewrite He. reflexivity.
    + rewrite Hd. simpl. apply IH.
Qed.

End GistFactory.


Lemma gist_factory_stops_on_error_status_witness :
  ChapterGithubGistFactory.create_chapter_from_string Gists.env
    (Gists.page Gists.gone_url) None (PyStr "Gone")
  = Raise HTTPError.
Proof.
  exact (gist_factory_stops_on_error_status Gists.env
           (Gists.page Gists.gone_url) None (PyStr "Gone") [] []
           (Bs4.Tag 1 "script" [("src", Gists.gone_url)] []) Gists.gone_url
           (Gists.answer "Not Found" false)
           eq_refl eq_refl eq_refl eq_refl eq_refl eq_refl).
Defined.



Lemma process_gist_without_rows_witness :
  ChapterGithubGistFactory.process_gist Gists.env Gists.empty_url
  = Ok (ChapterGithubGistFactory.append_meta
          (html_parser Gists.env
             (Str.join Os.linesep
                [ChapterGithubGistFactory.pre_open; "</pre>"]))
          (Bs4.find_class "div" ChapterGithubGistFactory.GIST_META
             (html_parser Gists.env ""))).
Proof.
  exact (process_gist_without_rows Gists.env Gists.empty_url
           (Gists.answer Gists.empty_js true) "" eq_refl eq_refl eq_refl
           eq_refl).
Defined.

Example process_gist_empty_sample :
  ChapterGithubGistFactory.process_gist Gists.env Gists.empty_url
  = Ok [Bs4.Tag 0 "pre" [("style", "font-size: 80%;")]
          [Bs4.NavigableString Os.linesep]].
Proof. reflexivity. Qed.

Example process_gist_nonum_sample :
  ChapterGithubGistFactory.process_gist Gists.env Gists.nonum_url
  = Raise (KeyError "data-line-number").
Proof. reflexivity. Qed.
